(** * MyDramaList search bot (src/mdlv3.py): scraper and handlers

    A shallow embedding of [MyDramaListScraper] (browser life cycle and
    extraction of records from a parsed page) and of the two chat handlers
    [drama_command] and [drama_callback], followed by the properties of the
    specification that can be stated over them.

    Conventions of the embedding.
    - A Python [str] is a [string] holding its UTF-8 bytes. Its characters
      are the code points ([PyStr.chars]); lengths and slices count
      characters, and the whitespace removed by [strip] and [split] is the
      one of Python's [str.isspace].
    - The page handed to the extraction code is the tree BeautifulSoup
      builds ([node]); the text-to-tree parser itself is the library's.
    - Calls into Playwright and into the chat client are external: each one
      is recorded in a trace with its outcome, and an environment decides
      which of them raise. *)

From stdpp Require Import gmap strings list.
From Stdlib Require Import Ascii String ZArith Lia.

Local Open Scope string_scope.

(* ===================================================================== *)
(** ** Python string operations used by the source *)
(* ===================================================================== *)

Module PyStr.

Definition is_empty (s : string) : bool :=
  match s with EmptyString => true | String _ _ => false end.

Definition of_bytes (l : list nat) : string :=
  string_of_list_ascii (map ascii_of_nat l).

(** *** Characters *)

(** In UTF-8 a byte of the form 10xxxxxx continues the character that
    was begun before it. *)
Definition is_continuation (c : ascii) : bool :=
  let n := nat_of_ascii c in (128 <=? n)%nat && (n <? 192)%nat.

(** The characters (code points) of a string, each one as its bytes: a
    byte and the continuation bytes that follow it. *)
Fixpoint chars (s : string) : list string :=
  match s with
  | EmptyString => []
  | String c s' =>
      match s' with
      | EmptyString => [String c EmptyString]
      | String c' _ =>
          if is_continuation c'
          then match chars s' with
               | ch :: l => String c ch :: l
               | [] => [String c EmptyString]
               end
          else String c EmptyString :: chars s'
      end
  end.

(** [''.join(l)] and [', '.join(l)] *)
Definition join (sep : string) (l : list string) : string := String.concat sep l.

(** The string made of the characters [l]. *)
Definition unchars (l : list string) : string := join EmptyString l.

(** [ch.isspace()] for a character [ch]: the characters Python treats as
    whitespace are U+0009..U+000D, U+001C..U+0020, U+0085, U+00A0,
    U+1680, U+2000..U+200A, U+2028, U+2029, U+202F, U+205F and U+3000,
    here by their UTF-8 bytes. *)
Definition isspace (ch : string) : bool :=
  match map nat_of_ascii (list_ascii_of_string ch) with
  | [a] => ((9 <=? a) && (a <=? 13) || (28 <=? a) && (a <=? 32))%nat
  | [a; b] => ((a =? 194) && ((b =? 133) || (b =? 160)))%nat
  | [a; b; c] =>
      ((a =? 225) && (b =? 154) && (c =? 128)
       || (a =? 226) && (b =? 128)
          && ((128 <=? c) && (c <=? 138)
              || (c =? 168) || (c =? 169) || (c =? 175))
       || (a =? 226) && (b =? 129) && (c =? 159)
       || (a =? 227) && (b =? 128) && (c =? 128))%nat
  | _ => false
  end.

(** [len(s)]: the number of characters. *)
Definition len (s : string) : nat := List.length (chars s).

(** [s[:n]]: the first [n] characters. *)
Definition slice_to (n : nat) (s : string) : string := unchars (take n (chars s)).

(** *** Stripping and splitting *)

Definition is_nil {A} (l : list A) : bool :=
  match l with [] => true | _ :: _ => false end.

(** The characters left when the leading whitespace is dropped. *)
Fixpoint lstrip_chars (l : list string) : list string :=
  match l with
  | [] => []
  | ch :: l' => if isspace ch then lstrip_chars l' else l
  end.

(** The characters left when the trailing whitespace is dropped. *)
Fixpoint rstrip_chars (l : list string) : list string :=
  match l with
  | [] => []
  | ch :: l' =>
      let r := rstrip_chars l' in
      if isspace ch && is_nil r then [] else ch :: r
  end.

(** [s.strip()] *)
Definition strip (s : string) : string :=
  unchars (rstrip_chars (lstrip_chars (chars s))).

(** [s.rstrip(chars)] for the one-byte characters accepted by [p]. *)
Fixpoint rstrip_by (p : ascii -> bool) (s : string) : string :=
  match s with
  | EmptyString => EmptyString
  | String c s' =>
      let r := rstrip_by p s' in
      if p c && is_empty r then EmptyString else String c r
  end.

(** [s.rstrip(':')] *)
Definition rstrip_colon (s : string) : string :=
  rstrip_by (fun c => Ascii.eqb c ":"%char) s.

(** The first whitespace-free run of characters and what follows it. *)
Fixpoint span_word (l : list string) : list string * list string :=
  match l with
  | [] => ([], [])
  | ch :: l' =>
      if isspace ch then ([], l)
      else let '(w, r) := span_word l' in (ch :: w, r)
  end.

(** The words of a list of characters; [cur] is the word being read. *)
Fixpoint words_from (cur : string) (l : list string) : list string :=
  match l with
  | [] => if is_empty cur then [] else [cur]
  | ch :: l' =>
      if isspace ch
      then (if is_empty cur then words_from EmptyString l'
            else cur :: words_from EmptyString l')
      else words_from (cur +:+ ch) l'
  end.

(** [s.split()] *)
Definition split_ws (s : string) : list string :=
  words_from EmptyString (chars s).

(** [s.split(maxsplit=1)]: leading whitespace is dropped, the first word
    is cut off, the whitespace after it is dropped and the remainder is
    kept as it is (trailing whitespace included). *)
Definition split_maxsplit1 (s : string) : list string :=
  match lstrip_chars (chars s) with
  | [] => []
  | l1 =>
      let '(w, r) := span_word l1 in
      match lstrip_chars r with
      | [] => [unchars w]
      | r1 => [unchars w; unchars r1]
      end
  end.

(** *** Searching and replacing *)

(** [s.startswith(pre)] *)
Definition startswith (pre s : string) : bool := String.prefix pre s.

(** [sub in s] *)
Fixpoint contains (sub s : string) : bool :=
  match s with
  | EmptyString => String.prefix sub EmptyString
  | String _ s' => String.prefix sub s || contains sub s'
  end.

Definition lower_char (c : ascii) : ascii :=
  let n := nat_of_ascii c in
  if (65 <=? n)%nat && (n <=? 90)%nat then ascii_of_nat (n + 32) else c.

(** [s.lower()], used for the test ['poster' in x.lower()] only: the
    letters A to Z are lowered. No other character lowers to one of the
    letters of [poster], so the test is decided as in Python. *)
Fixpoint lower (s : string) : string :=
  match s with
  | EmptyString => EmptyString
  | String c s' => String (lower_char c) (lower s')
  end.

(** [s.replace(old, '')] for a non-empty [old]: the occurrences of [old]
    are found left to right without overlap and dropped. [skip] counts
    the characters of the occurrence being dropped that are still to
    come. *)
Fixpoint remove_from (old : string) (skip : nat) (s : string) : string :=
  match s with
  | EmptyString => EmptyString
  | String c s' =>
      match skip with
      | S k => remove_from old k s'
      | O =>
          if String.prefix old s
          then remove_from old (String.length old - 1) s'
          else String c (remove_from old 0 s')
      end
  end.

Definition replace_empty (old s : string) : string := remove_from old 0 s.

End PyStr.

(* ===================================================================== *)
(** ** The parsed page: BeautifulSoup's tree *)
(* ===================================================================== *)

(** A [Tag] carries its name, its attribute dictionary (the [class]
    attribute as written, whitespace separated) and its children; the
    [BeautifulSoup] object itself is the [Tag] at the root. *)
#[warnings="-register-all"] Inductive node : Type :=
| NavigableString (s : string)
| Tag (name : string) (attrs : list (string * string)) (contents : list node).

Module Soup.

Fixpoint assoc (k : string) (d : list (string * string)) : option string :=
  match d with
  | [] => None
  | (k', v) :: d' => if String.eqb k k' then Some v else assoc k d'
  end.

(** [tag.get(k)] *)
Definition get (k : string) (n : node) : option string :=
  match n with
  | NavigableString _ => None
  | Tag _ attrs _ => assoc k attrs
  end.

(** [tag.get(k, '')] *)
Definition get_or_empty (k : string) (n : node) : string :=
  default EmptyString (get k n).

Definition has_name (nm : string) (n : node) : bool :=
  match n with
  | NavigableString _ => false
  | Tag nm' _ _ => String.eqb nm nm'
  end.

Fixpoint mem (x : string) (l : list string) : bool :=
  match l with
  | [] => false
  | y :: l' => String.eqb x y || mem x l'
  end.

(** [class_=c]: [c] is one of the classes of the tag. *)
Definition has_class (c : string) (n : node) : bool :=
  match get "class" n with
  | None => false
  | Some v => mem c (PyStr.split_ws v)
  end.

(** All the nodes below [n], in document order. *)
Fixpoint descendants (n : node) : list node :=
  match n with
  | NavigableString _ => []
  | Tag _ _ cs => flat_map (fun c => c :: descendants c) cs
  end.

(** [tag.find_all(...)] with the filter [p] *)
Definition find_all (p : node -> bool) (n : node) : list node :=
  List.filter p (descendants n).

(** [tag.find(...)]: the first match or [None] *)
Definition find (p : node -> bool) (n : node) : option node :=
  head (find_all p n).

(** [tag.text] *)
Fixpoint text (n : node) : string :=
  match n with
  | NavigableString s => s
  | Tag _ _ cs => PyStr.join EmptyString (map text cs)
  end.

(** The non-empty stripped strings below [n], in document order. *)
Fixpoint stripped_strings (n : node) : list string :=
  match n with
  | NavigableString s =>
      let t := PyStr.strip s in if PyStr.is_empty t then [] else [t]
  | Tag _ _ cs => flat_map stripped_strings cs
  end.

(** [tag.get_text(strip=True)] *)
Definition get_text_strip (n : node) : string :=
  PyStr.join EmptyString (stripped_strings n).

(** [n] with every descendant accepted by [p] taken out of the tree. *)
Fixpoint prune (p : node -> bool) (n : node) : node :=
  match n with
  | NavigableString s => NavigableString s
  | Tag nm at_ cs =>
      Tag nm at_ (flat_map (fun c => if p c then [] else [prune p c]) cs)
  end.

(** The tree in which the first node (document order) accepted by [q]
    has been replaced by its image under [f]; the flag tells whether
    there was one. The root itself is not a candidate. *)
Fixpoint update_first (q : node -> bool) (f : node -> node) (n : node)
  : node * bool :=
  match n with
  | NavigableString s => (n, false)
  | Tag nm at_ cs =>
      let go :=
        fix go (l : list node) : list node * bool :=
          match l with
          | [] => ([], false)
          | c :: r =>
              if q c then (f c :: r, true)
              else
                let '(c', hit) := update_first q f c in
                if hit then (c' :: r, true)
                else let '(r', hit') := go r in (c :: r', hit')
          end in
      let '(cs', hit) := go cs in (Tag nm at_ cs', hit)
  end.

End Soup.

(* ===================================================================== *)
(** ** Extraction of the search results (search_dramas, lines 79-104) *)
(* ===================================================================== *)

Definition BASE_URL : string := "https://mydramalist.com".

(** The dictionary appended to [results]. *)
Record SearchResult : Type := mkSearchResult {
  sr_id : string;
  sr_title : string;
  sr_url : string;
  sr_type_year : string
}.

(** [id=lambda x: x and x.startswith('mdl-')] *)
Definition id_is_mdl (n : node) : bool :=
  match Soup.get "id" n with
  | None => false
  | Some x => negb (PyStr.is_empty x) && PyStr.startswith "mdl-" x
  end.

(** The filter of [soup.find_all('div', class_='box', id=...)]. *)
Definition is_drama_box (n : node) : bool :=
  Soup.has_name "div" n && Soup.has_class "box" n && id_is_mdl n.

Definition drama_boxes (soup : node) : list node :=
  Soup.find_all is_drama_box soup.

Definition is_title_h6 (n : node) : bool :=
  Soup.has_name "h6" n && Soup.has_class "title" n.

Definition is_muted_span (n : node) : bool :=
  Soup.has_name "span" n && Soup.has_class "text-muted" n.

(** The dictionary built from one box once its title and link are found. *)
Definition box_entry (box link_tag : node) : SearchResult :=
  let title := PyStr.strip (Soup.text link_tag) in
  let url := Soup.get_or_empty "href" link_tag in
  let drama_id := PyStr.replace_empty "mdl-" (Soup.get_or_empty "id" box) in
  let type_year :=
    match Soup.find is_muted_span box with
    | Some type_info => PyStr.strip (Soup.text type_info)
    | None => EmptyString
    end in
  {| sr_id := drama_id; sr_title := title;
     sr_url := BASE_URL +:+ url; sr_type_year := type_year |}.

(** One turn of the loop body: [continue] leaves [results] as it is. *)
Definition search_step (results : list SearchResult) (box : node)
  : list SearchResult :=
  match Soup.find is_title_h6 box with
  | None => results
  | Some title_tag =>
      match Soup.find (Soup.has_name "a") title_tag with
      | None => results
      | Some link_tag => results ++ [box_entry box link_tag]
      end
  end.

(** [for box in drama_boxes[:10]: ...] starting from [results = []]. *)
Definition search_results (soup : node) : list SearchResult :=
  fold_left search_step (take 10 (drama_boxes soup)) [].

(* ===================================================================== *)
(** ** Extraction of the detail record (get_drama_details, lines 121-178) *)
(* ===================================================================== *)

(** What the code can raise: an attribute access on [None], or the failure
    of an external call (all of them are subclasses of [Exception]). *)
Inductive exn : Type :=
| AttributeError
| ExternalError (at_call : nat).

(** The dictionary returned by [get_drama_details]. *)
Record Details : Type := mkDetails {
  d_title : string;
  d_image_url : string;
  d_rating : string;
  d_country : string;
  d_type : string;
  d_episodes : string;
  d_aired : string;
  d_duration : string;
  d_genres : string;
  d_synopsis : string;
  d_url : string
}.

Definition is_film_title (n : node) : bool :=
  Soup.has_name "h1" n && Soup.has_class "film-title" n.

(** [alt=lambda x: x and 'poster' in x.lower()] *)
Definition alt_is_poster (n : node) : bool :=
  match Soup.get "alt" n with
  | None => false
  | Some x => negb (PyStr.is_empty x) && PyStr.contains "poster" (PyStr.lower x)
  end.

Definition is_poster_img (n : node) : bool :=
  Soup.has_name "img" n && Soup.has_class "img-responsive" n && alt_is_poster n.

Definition is_rating_div (n : node) : bool :=
  Soup.has_name "div" n && Soup.has_class "col-film-rating" n.

Definition is_box_div (n : node) : bool :=
  Soup.has_name "div" n && Soup.has_class "box" n.

Definition is_list_item (n : node) : bool :=
  Soup.has_name "li" n && Soup.has_class "list-item" n.

Definition is_inline_b (n : node) : bool :=
  Soup.has_name "b" n && Soup.has_class "inline" n.

Definition is_synopsis_div (n : node) : bool :=
  Soup.has_name "div" n && Soup.has_class "show-synopsis" n.

Definition is_genres_li (n : node) : bool :=
  Soup.has_name "li" n && Soup.has_class "show-genres" n.

Definition is_genre_link (n : node) : bool :=
  Soup.has_name "a" n && Soup.has_class "text-primary" n.

(** Lines 124-125. *)
Definition extract_title (soup : node) : string :=
  match Soup.find is_film_title soup with
  | Some title_tag => PyStr.strip (Soup.text title_tag)
  | None => "Unknown"
  end.

(** Lines 128-131. *)
Definition extract_image_url (soup : node) : string :=
  let image_url :=
    match Soup.find is_poster_img soup with
    | Some img_tag => Soup.get_or_empty "src" img_tag
    | None => EmptyString
    end in
  if negb (PyStr.is_empty image_url) && negb (PyStr.startswith "http" image_url)
  then (if PyStr.startswith "//" image_url
        then "https:" +:+ image_url
        else BASE_URL +:+ image_url)
  else image_url.

(** Lines 134-135: [rating_div.find('div', class_='box')] is used without a
    test, so [.text] is taken on [None] when the inner element is absent. *)
Definition extract_rating (soup : node) : exn + string :=
  match Soup.find is_rating_div soup with
  | Some rating_div =>
      match Soup.find is_box_div rating_div with
      | Some box => inr (PyStr.strip (Soup.text box))
      | None => inl AttributeError
      end
  | None => inr "N/A"
  end.

(** Lines 141-146, one list item. *)
Definition info_step (info : gmap string string) (item : node)
  : gmap string string :=
  match Soup.find is_inline_b item with
  | Some b_tag =>
      let key := PyStr.rstrip_colon (PyStr.strip (Soup.text b_tag)) in
      let value :=
        PyStr.strip (PyStr.replace_empty (key +:+ ":") (Soup.get_text_strip item)) in
      <[key := value]> info
  | None => info
  end.

(** Lines 138-146. *)
Definition extract_info (soup : node) : gmap string string :=
  fold_left info_step (Soup.find_all is_list_item soup) ∅.

(** Lines 149-155. The links are taken out of the synopsis container in
    place, so the tree the later lookups see is returned with the text. *)
Definition extract_synopsis (soup : node) : string * node :=
  match Soup.find is_synopsis_div soup with
  | Some synopsis_div =>
      let pruned := Soup.prune (Soup.has_name "a") synopsis_div in
      (Soup.get_text_strip pruned,
       fst (Soup.update_first is_synopsis_div (Soup.prune (Soup.has_name "a")) soup))
  | None => (EmptyString, soup)
  end.

(** Lines 158-162. *)
Definition extract_genres (soup : node) : list string :=
  match Soup.find is_genres_li soup with
  | Some genres_li =>
      map (fun link => PyStr.strip (Soup.text link))
          (Soup.find_all is_genre_link genres_li)
  | None => []
  end.

(** [info.get(k1, info.get(k2, 'N/A'))] *)
Definition info_get (info : gmap string string) (k1 k2 : string) : string :=
  default (default "N/A" (info !! k2)) (info !! k1).

(** [synopsis[:500] + '...' if len(synopsis) > 500 else synopsis] *)
Definition clip_synopsis (synopsis : string) : string :=
  if (500 <? PyStr.len synopsis)%nat
  then PyStr.slice_to 500 synopsis +:+ "..."
  else synopsis.

(** The body of the [try] of [get_drama_details] once the page is there. *)
Definition extract_details (soup : node) (drama_url : string) : exn + Details :=
  let title := extract_title soup in
  let image_url := extract_image_url soup in
  match extract_rating soup with
  | inl e => inl e
  | inr rating =>
      let info := extract_info soup in
      let '(synopsis, soup') := extract_synopsis soup in
      let genres := extract_genres soup' in
      inr {| d_title := title;
             d_image_url := image_url;
             d_rating := rating;
             d_country := info_get info "Country" "Pays";
             d_type := info_get info "Type" "Catégorie";
             d_episodes := info_get info "Episodes" "Épisodes";
             d_aired := info_get info "Aired" "Diffusé";
             d_duration := info_get info "Duration" "Durée";
             d_genres := match genres with
                         | [] => "N/A"
                         | _ => PyStr.join ", " genres
                         end;
             d_synopsis := clip_synopsis synopsis;
             d_url := drama_url |}
  end.

(* ===================================================================== *)
(** ** The outside world: browser, chat client, trace *)
(* ===================================================================== *)

(** A button of an inline keyboard: a callback selector or a link. *)
Inductive button : Type :=
| CallbackButton (text callback_data : string)
| UrlButton (text url : string).

(** The texts the handlers send, one constructor per message of the source
    with the values interpolated into it. *)
Inductive message : Type :=
| MsgUsage                       (* "Please provide a drama title to search." *)
| MsgSearching (query : string)  (* "Searching for: <query>..." *)
| MsgNoResults (query : string)  (* "No results found for: <query>" *)
| MsgResults (query : string) (found : nat) (keyboard : list button)
                                 (* "Search Results for: ..." with the buttons *)
| MsgSearchError                 (* "An error occurred while searching." *)
| MsgNoUserData                  (* "Drama information not found. Please search again." *)
| MsgDramaNotFound               (* "Error: Drama not found." *)
| MsgLoading                     (* "Loading drama details..." *)
| MsgNoDetails                   (* "Error: Could not fetch drama details." *)
| MsgDetails (caption : string) (keyboard : list button)
                                 (* the caption as text, with the link button *)
| MsgDetailsError.               (* "An error occurred while fetching drama details." *)

(** The calls that leave the program. [BeautifulSoup] is recorded as well,
    to place the parsing among them; it does not fail. *)
Inductive call : Type :=
| PlaywrightStart
| FirefoxLaunch
| NewContext
| NewPage
| Goto (url : string)
| WaitNetworkIdle
| PageContent
| PageClose
| ContextClose
| BeautifulSoup
| BrowserClose
| PlaywrightStop
| Answer
| ReplyText (m : message)
| EditText (m : message)
| DeleteMessage
| SendPhoto (photo caption : string) (keyboard : list button)
| Sleep.

(** A call together with its outcome ([true]: it returned). *)
Definition event : Type := call * bool.

(** [user_data[user_id]] *)
Record UserEntry : Type := mkUserEntry {
  entry_results : list SearchResult;
  entry_query : string
}.

(** The environment of one run: which external call raises (by its
    position in the run) and what a URL renders to. [None] stands for an
    empty content string, [Some soup] for a content BeautifulSoup turns
    into [soup]. *)
Record env : Type := mkEnv {
  raises : nat -> bool;
  web : string -> option node
}.

(** [browser] and [playwright] are the two attributes of the scraper
    ([None] or a handle), [user_data] the global dictionary,
    [message_deleted] tells whether the message the callback works on has
    been deleted, [trace] lists the calls made so far and [clock] counts
    them. *)
Record world : Type := mkWorld {
  browser : option nat;
  playwright : option nat;
  user_data : gmap Z UserEntry;
  message_deleted : bool;
  trace : list event;
  clock : nat
}.

Definition set_browser (b : option nat) (w : world) : world :=
  mkWorld b (playwright w) (user_data w) (message_deleted w) (trace w) (clock w).

Definition set_playwright (p : option nat) (w : world) : world :=
  mkWorld (browser w) p (user_data w) (message_deleted w) (trace w) (clock w).

Definition set_user_data (u : gmap Z UserEntry) (w : world) : world :=
  mkWorld (browser w) (playwright w) u (message_deleted w) (trace w) (clock w).

Definition set_message_deleted (d : bool) (w : world) : world :=
  mkWorld (browser w) (playwright w) (user_data w) d (trace w) (clock w).

(** The call [c] is appended to the trace with outcome [ok]. *)
Definition log (c : call) (ok : bool) (w : world) : world :=
  mkWorld (browser w) (playwright w) (user_data w) (message_deleted w)
          (trace w ++ [(c, ok)]) (S (clock w)).

(** [f"{self.BASE_URL}/search?q={query}"] *)
Definition search_url (query : string) : string :=
  BASE_URL +:+ "/search?q=" +:+ query.

(** ** A state and exception monad for the coroutines *)

Inductive result (A : Type) : Type :=
| Ok (a : A)
| Raise (e : exn).
Arguments Ok {A} a.
Arguments Raise {A} e.

Definition M (A : Type) : Type := world -> result A * world.

Definition ret {A} (a : A) : M A := fun w => (Ok a, w).

Definition raise {A} (e : exn) : M A := fun w => (Raise e, w).

Definition bind {A B} (m : M A) (k : A -> M B) : M B :=
  fun w =>
    match m w with
    | (Ok a, w') => k a w'
    | (Raise e, w') => (Raise e, w')
    end.

(** [try: m  except Exception as e: h e] *)
Definition try_except {A} (m : M A) (h : exn -> M A) : M A :=
  fun w =>
    match m w with
    | (Ok a, w') => (Ok a, w')
    | (Raise e, w') => h e w'
    end.

Definition get_world : M world := fun w => (Ok w, w).

Definition modify (f : world -> world) : M unit := fun w => (Ok tt, f w).

Declare Scope coro_scope.
Delimit Scope coro_scope with coro.
Notation "x <- m ;; k" := (bind m (fun x => k))
  (at level 100, m at next level, k at level 200, right associativity)
  : coro_scope.
Notation "m ;;; k" := (bind m (fun _ => k))
  (at level 100, k at level 200, right associativity) : coro_scope.
Local Open Scope coro_scope.

Section Run.

Variable E : env.

(** An awaited external call: logged, then it returns or raises as the
    environment says. *)
Definition ext (c : call) : M unit :=
  fun w =>
    if raises E (clock w)
    then (Raise (ExternalError (clock w)), log c false w)
    else (Ok tt, log c true w).

(** A library call that cannot fail. *)
Definition note (c : call) : M unit := fun w => (Ok tt, log c true w).

(** [edit_text] on the message of the callback query: the chat platform
    rejects the edit of a message that has been deleted. *)
Definition edit_callback_message (m : message) : M unit :=
  fun w =>
    if message_deleted w
    then (Raise (ExternalError (clock w)), log (EditText m) false w)
    else ext (EditText m) w.

(** [callback_query.message.delete()] *)
Definition delete_callback_message : M unit :=
  ext DeleteMessage ;;; modify (set_message_deleted true).

(* ------------------------------------------------------------------- *)
(** *** MyDramaListScraper *)

(** [_ensure_browser] *)
Definition _ensure_browser : M unit :=
  w <- get_world ;;
  match browser w with
  | None =>
      p <- get_world ;;
      ext PlaywrightStart ;;;
      modify (set_playwright (Some (clock p))) ;;;
      b <- get_world ;;
      ext FirefoxLaunch ;;;
      modify (set_browser (Some (clock b)))
  | Some _ => ret tt
  end.

(** [_get_page_content]: the [except] turns every failure of the
    navigation into [None]; the [finally] block then closes the page and
    the context. A failure before the [try] or inside the [finally]
    leaves the function as an exception. *)
Definition _get_page_content (url : string) : M (option node) :=
  _ensure_browser ;;;
  ext NewContext ;;;
  ext NewPage ;;;
  content <- try_except
               (ext (Goto url) ;;;
                ext WaitNetworkIdle ;;;
                ext PageContent ;;;
                ret (web E url))
               (fun _ => ret None) ;;
  ext PageClose ;;;
  ext ContextClose ;;;
  ret content.

(** [search_dramas]; the URL is the [search_url] defined above. *)
Definition search_dramas (query : string) : M (list SearchResult) :=
  try_except
    (content <- _get_page_content (search_url query) ;;
     match content with
     | None => ret []
     | Some soup =>
         note BeautifulSoup ;;;
         ret (search_results soup)
     end)
    (fun _ => ret []).

(** [get_drama_details] *)
Definition get_drama_details (drama_url : string) : M (option Details) :=
  try_except
    (content <- _get_page_content drama_url ;;
     match content with
     | None => ret None
     | Some soup =>
         note BeautifulSoup ;;;
         match extract_details soup drama_url with
         | inl e => raise e
         | inr d => ret (Some d)
         end
     end)
    (fun _ => ret None).

(** [close] *)
Definition close : M unit :=
  try_except
    (w <- get_world ;;
     match browser w with
     | Some _ => ext BrowserClose ;;; modify (set_browser None)
     | None => ret tt
     end ;;;
     w' <- get_world ;;
     match playwright w' with
     | Some _ => ext PlaywrightStop ;;; modify (set_playwright None)
     | None => ret tt
     end)
    (fun _ => modify (set_browser None) ;;; modify (set_playwright None)).

(* ------------------------------------------------------------------- *)
(** *** drama_command *)

(** Lines 300-311: one button per result. *)
Definition result_button (drama : SearchResult) : button :=
  let button_text :=
    if PyStr.is_empty (sr_type_year drama) then sr_title drama
    else sr_title drama +:+ " (" +:+ sr_type_year drama +:+ ")" in
  CallbackButton (PyStr.slice_to 64 button_text) ("mdl_" +:+ sr_id drama).

(** Lines 276-327: the [try] block of the handler and its [except]. *)
Definition search_interaction (user_id : Z) (query : string) : M unit :=
  try_except
    (results <- search_dramas query ;;
     close ;;;
     match results with
     | [] => ext (EditText (MsgNoResults query))
     | _ =>
         modify (fun w =>
           set_user_data
             (<[user_id := mkUserEntry results query]> (user_data w)) w) ;;;
         ext (EditText (MsgResults query (List.length results)
                          (map result_button results)))
     end)
    (fun _ => close ;;; ext (EditText MsgSearchError)).

(** The handler of [/drama]; [user_id] is [message.from_user.id] and
    [text] is [message.text]. *)
Definition drama_command (user_id : Z) (text : string) : M unit :=
  match PyStr.split_maxsplit1 text with
  | _ :: part :: _ =>
      let query := PyStr.strip part in
      ext (ReplyText (MsgSearching query)) ;;;
      search_interaction user_id query
  | _ => ext (ReplyText MsgUsage)
  end.

(* ------------------------------------------------------------------- *)
(** *** drama_callback *)

(** Lines 345-349: the URL of the first stored result with this id. *)
Fixpoint lookup_url (drama_id : string) (l : list SearchResult)
  : option string :=
  match l with
  | [] => None
  | drama :: l' =>
      if String.eqb (sr_id drama) drama_id then Some (sr_url drama)
      else lookup_url drama_id l'
  end.

(** Lines 368-376. *)
Definition caption_of (details : Details) : string :=
  "<b>" +:+ d_title details +:+ "</b>

" +:+ "⭐ <b>Rating:</b> " +:+ d_rating details +:+ "/10
" +:+ "🌍 <b>Country:</b> " +:+ d_country details +:+ "
" +:+ "📺 <b>Type:</b> " +:+ d_type details +:+ "
" +:+ "📊 <b>Episodes:</b> " +:+ d_episodes details +:+ "
" +:+ "📅 <b>Aired:</b> " +:+ d_aired details +:+ "
" +:+ "⏱ <b>Duration:</b> " +:+ d_duration details +:+ "
" +:+ "🎭 <b>Genres:</b> " +:+ d_genres details +:+ "

" +:+ "📖 <b>Synopsis:</b>
" +:+ d_synopsis details.

Definition link_keyboard (details : Details) : list button :=
  [UrlButton "🌐 View on MyDramaList" (d_url details)].

(** Lines 384-424: the delivery of the details, the close that follows
    it, and the fallback of the inner [except]. *)
Definition send_details (details : Details) : M unit :=
  let caption := caption_of details in
  let keyboard := link_keyboard details in
  try_except
    ((if negb (PyStr.is_empty (d_image_url details))
      then
        delete_callback_message ;;;
        ext (SendPhoto (d_image_url details) caption keyboard)
      else
        edit_callback_message (MsgDetails caption keyboard)) ;;;
     ext Sleep ;;;
     close)
    (fun _ =>
       edit_callback_message (MsgDetails caption keyboard) ;;;
       ext Sleep ;;;
       close).

(** Lines 358-432: the outer [try] block of the handler and its
    [except]. *)
Definition details_interaction (drama_url : string) : M unit :=
  try_except
    (details <- get_drama_details drama_url ;;
     match details with
     | None =>
         close ;;;
         edit_callback_message MsgNoDetails
     | Some details => send_details details
     end)
    (fun _ => close ;;; edit_callback_message MsgDetailsError).

(** The handler of a button click; [user_id] is
    [callback_query.from_user.id] and [data] is [callback_query.data]. *)
Definition drama_callback (user_id : Z) (data : string) : M unit :=
  ext Answer ;;;
  let drama_id := PyStr.replace_empty "mdl_" data in
  w <- get_world ;;
  match user_data w !! user_id with
  | None => edit_callback_message MsgNoUserData
  | Some entry =>
      let drama_url := lookup_url drama_id (entry_results entry) in
      match drama_url with
      | None => edit_callback_message MsgDramaNotFound
      | Some url =>
          if PyStr.is_empty url
          then edit_callback_message MsgDramaNotFound
          else
            edit_callback_message MsgLoading ;;;
            details_interaction url
      end
  end.

End Run.

(* ===================================================================== *)
(** ** Vocabulary of the properties *)
(* ===================================================================== *)

(** What one container contributes to the result list: nothing when the
    title element or its anchor is missing. *)
Definition box_result (box : node) : option SearchResult :=
  match Soup.find is_title_h6 box with
  | None => None
  | Some title_tag =>
      match Soup.find (Soup.has_name "a") title_tag with
      | None => None
      | Some link_tag => Some (box_entry box link_tag)
      end
  end.

Definition has_title_and_anchor (box : node) : bool :=
  match box_result box with Some _ => true | None => false end.

(** Some character of [s] is not whitespace. *)
Definition has_non_space (s : string) : bool :=
  existsb (fun ch => negb (PyStr.isspace ch)) (PyStr.chars s).

(** An identifier made of the tag [mdl-] and a non-empty site identifier
    in which the tag does not occur again. *)
Definition site_identifier (x : string) : bool :=
  match x with
  | String "m" (String "d" (String "l" (String "-" s))) =>
      negb (PyStr.is_empty s) && negb (PyStr.contains "mdl-" s)
  | _ => false
  end.

(** A container as the site writes it: a title element with an anchor
    whose text is not blank, and an identifier of the form above. *)
Definition well_formed_box (box : node) : bool :=
  match Soup.find is_title_h6 box with
  | None => false
  | Some title_tag =>
      match Soup.find (Soup.has_name "a") title_tag with
      | None => false
      | Some link_tag =>
          has_non_space (Soup.text link_tag)
          && site_identifier (Soup.get_or_empty "id" box)
      end
  end.

Definition well_formed_page (soup : node) : bool :=
  forallb well_formed_box (drama_boxes soup).

(** *** Traces *)

(** The events a run adds to the trace of the world it started from. *)
Definition segment (w w' : world) : list event :=
  drop (List.length (trace w)) (trace w').

Definition is_browser_close (c : call) : bool :=
  match c with BrowserClose => true | _ => false end.

(** How many times the browser was told to close. *)
Definition count_closes (tr : list event) : nat :=
  List.length (List.filter (fun ev => is_browser_close (fst ev)) tr).

(** Whether the scraper holds a browser. *)
Definition live (w : world) : bool :=
  match browser w with Some _ => true | None => false end.

(** Whether a browser was launched (the launch returned). *)
Definition opened (tr : list event) : bool :=
  existsb (fun ev => match ev with (FirefoxLaunch, true) => true | _ => false end) tr.

(** The run from [w] to [w'] ends without a browser, and the browser was
    told to close exactly once if one was launched, never otherwise. *)
Definition closed_once (w w' : world) : Prop :=
  live w' = false
  /\ count_closes (segment w w') = (if opened (segment w w') then 1 else 0).

(** A message or a photo that reached the user. *)
Definition delivered (ev : event) : bool :=
  match ev with
  | (EditText _, true) | (ReplyText _, true) | (SendPhoto _ _ _, true) => true
  | _ => false
  end.

(** The URLs that were navigated to, in order. *)
Definition gotos (tr : list event) : list string :=
  omap (fun ev => match fst ev with Goto u => Some u | _ => None end) tr.

Definition called (c : call) (tr : list event) : Prop :=
  exists ok, In (c, ok) tr.

(** The steps of an interaction the ordering property speaks about. *)
Inductive stage : Type :=
| Fetch     (* navigation and reading of the rendered page *)
| Parse     (* BeautifulSoup and the extraction *)
| Render    (* the outcome shown to the user: results, not found, details *)
| Close     (* the browser and the driver are shut down *)
| Report.   (* failure messages: search error, no details, details error *)

Definition message_stage (m : message) : option stage :=
  match m with
  | MsgResults _ _ _ | MsgNoResults _ | MsgDetails _ _ => Some Render
  | MsgSearchError | MsgNoDetails | MsgDetailsError => Some Report
  | _ => None
  end.

Definition stage_of (c : call) : option stage :=
  match c with
  | Goto _ | WaitNetworkIdle | PageContent => Some Fetch
  | BeautifulSoup => Some Parse
  | BrowserClose | PlaywrightStop => Some Close
  | EditText m => message_stage m
  | SendPhoto _ _ _ => Some Render
  | _ => None
  end.

(** Every event of stage [a] comes before every event of stage [b]. *)
Definition precedes (a b : stage) (tr : list event) : Prop :=
  forall i j x y,
    tr !! i = Some x -> tr !! j = Some y ->
    stage_of (fst x) = Some a -> stage_of (fst y) = Some b ->
    i < j.

(** The order the search handler keeps. *)
Definition search_rank (s : stage) : nat :=
  match s with
  | Fetch => 0 | Parse => 1 | Close => 2 | Render => 3 | Report => 3
  end.

(** The order the detail handler keeps. *)
Definition detail_rank (s : stage) : nat :=
  match s with
  | Fetch => 0 | Parse => 1 | Render => 2 | Close => 3 | Report => 4
  end.

(** The two orders agree on fetching and parsing. *)
Definition fetch_parse_rank (rank : stage -> nat) : Prop :=
  rank Fetch = 0 /\ rank Parse = 1.

(** A test on the stage of an event; events outside the stages pass. *)
Definition on_stage (p : stage -> bool) (ev : event) : bool :=
  match stage_of (fst ev) with
  | Some s => p s
  | None => true
  end.

Definition ranks_le (rank : stage -> nat) (k : nat) (tr : list event) : bool :=
  forallb (on_stage (fun s => rank s <=? k)%nat) tr.

Definition ranks_ge (rank : stage -> nat) (k : nat) (tr : list event) : bool :=
  forallb (on_stage (fun s => k <=? rank s)%nat) tr.

(** No event is followed by an event of lower rank. *)
Fixpoint ordered (rank : stage -> nat) (tr : list event) : bool :=
  match tr with
  | [] => true
  | ev :: tr' =>
      match stage_of (fst ev) with
      | Some s => ranks_ge rank (rank s) tr'
      | None => true
      end && ordered rank tr'
  end.

Definition stage_eqb (a b : stage) : bool :=
  match a, b with
  | Fetch, Fetch | Parse, Parse | Render, Render
  | Close, Close | Report, Report => true
  | _, _ => false
  end.

(** All the staged events of [tr] are of stage [s]. *)
Definition only (s : stage) (tr : list event) : bool :=
  forallb (on_stage (stage_eqb s)) tr.

(** *** Sample pages and environments *)

Definition sample_link (href txt : string) : node :=
  Tag "a" [("href", href)] [NavigableString txt].

(** A container with title, anchor and subtitle. *)
Definition sample_box (id title : string) : node :=
  Tag "div" [("class", "box"); ("id", id)]
    [Tag "h6" [("class", "text-primary title")]
       [sample_link ("/" +:+ id) title];
     Tag "span" [("class", "text-muted")]
       [NavigableString " Korean Drama - 2021 "]].

(** A container without a title element. *)
Definition sample_bare_box (id : string) : node :=
  Tag "div" [("class", "box"); ("id", id)]
    [Tag "p" [] [NavigableString "advertisement"]].

Definition sample_page (body : list node) : node :=
  Tag "[document]" [] [Tag "html" [] [Tag "body" [] body]].

(** Three results, as in the scenario of the specification. *)
Definition page_three : node :=
  sample_page [sample_box "mdl-12345" "Squid Game";
               sample_box "mdl-67890" "Squid Game 2";
               sample_box "mdl-11111" "Squid Game: The Challenge"].

(** Eleven matching containers: the first has no title, the other ten
    are complete. *)
Definition page_eleven : node :=
  sample_page
    (sample_bare_box "mdl-100"
       :: map (fun i => sample_box ("mdl-" +:+ i) ("Drama " +:+ i))
            ["201"; "202"; "203"; "204"; "205";
             "206"; "207"; "208"; "209"; "210"]).

(** No matching container at all. *)
Definition page_empty : node := sample_page [].

(** A result whose site identifier contains the selector tag [mdl_]. *)
Definition page_tagged_id : node :=
  sample_page [sample_box "mdl-amdl_b" "Tagged"].

(** A detail page with poster, rating, one info line and genres. *)
Definition detail_page_full : node :=
  sample_page
    [Tag "h1" [("class", "film-title")] [NavigableString " Squid Game "];
     Tag "img" [("class", "img-responsive"); ("alt", "Squid Game Poster");
                ("src", "//i.mydramalist.com/p.jpg")] [];
     Tag "div" [("class", "col-film-rating")]
       [Tag "div" [("class", "box deep-orange")] [NavigableString " 8.4 "]];
     Tag "li" [("class", "list-item p-a-0")]
       [Tag "b" [("class", "inline")] [NavigableString "Country:"];
        NavigableString " South Korea "];
     Tag "div" [("class", "show-synopsis")]
       [NavigableString " Players compete. ";
        Tag "a" [("href", "/edit")] [NavigableString "Edit"]];
     Tag "li" [("class", "list-item p-a-0 show-genres")]
       [Tag "b" [("class", "inline")] [NavigableString "Genres:"];
        Tag "a" [("class", "text-primary")] [NavigableString "Thriller"];
        NavigableString ", ";
        Tag "a" [("class", "text-primary")] [NavigableString "Drama"]]].

(** The same kind of page without a poster. *)
Definition detail_page_text_only : node :=
  sample_page
    [Tag "h1" [("class", "film-title")] [NavigableString "Kingdom"];
     Tag "div" [("class", "col-film-rating")]
       [Tag "div" [("class", "box")] [NavigableString "8.9"]]].

(** A detail page whose rating container is there but empty. *)
Definition detail_page_bare_rating : node :=
  sample_page
    [Tag "h1" [("class", "film-title")] [NavigableString "Kingdom"];
     Tag "div" [("class", "col-film-rating")] []].

(** An environment in which no call fails and every URL shows [soup]. *)
Definition calm (soup : node) : env :=
  mkEnv (fun _ => false) (fun _ => Some soup).

(** An environment in which exactly the call numbered [n] fails (the
    calls of a run are numbered from 0). *)
Definition failing_at (n : nat) (soup : node) : env :=
  mkEnv (fun k => Nat.eqb k n) (fun _ => Some soup).

(** The state of a process that has just started. *)
Definition fresh : world := mkWorld None None ∅ false [] 0.

(** A stored result set for user 7. *)
Definition stored_entry : UserEntry :=
  mkUserEntry
    [mkSearchResult "67890" "Squid Game 2"
       "https://mydramalist.com/67890-squid-game-2" "Korean Drama - 2024"]
    "Squid Game".

Definition with_stored : world :=
  mkWorld None None {[ 7%Z := stored_entry ]} false [] 0.

(** *** Tactics for the runs *)

(** Unfolds the monad and the primitive steps. *)
Ltac unfold_run :=
  cbv beta iota zeta delta
    [bind try_except ret raise get_world modify ext note log
     edit_callback_message delete_callback_message
     set_browser set_playwright set_user_data set_message_deleted
     browser playwright user_data message_deleted trace clock].

(** Splits on the outcome of the next external call. *)
Ltac next_call E :=
  match goal with
  | |- context [raises E ?n] => destruct (raises E n) eqn:?
  end.

(** Closes a leaf of a run: the trace is re-associated to expose the
    segment and the measures are computed on it. *)
Ltac trace_eq :=
  cbn [trace]; rewrite <- ?app_assoc;
  first [reflexivity | symmetry; apply app_nil_r].

Ltac leaf :=
  (split; [reflexivity|]);
  (split; [trace_eq|]);
  repeat match goal with |- _ /\ _ => split end;
  try reflexivity;
  try (intros; discriminate);
  try (left; reflexivity);
  try (right; reflexivity);
  try (intros; simplify_eq; auto).

(* ===================================================================== *)
(** ** Vocabulary of the further properties *)
(* ===================================================================== *)

(** Characters that are all whitespace, and characters of which none is. *)
Definition all_space (l : list string) : bool := forallb PyStr.isspace l.

Definition no_space (l : list string) : bool :=
  forallb (fun ch => negb (PyStr.isspace ch)) l.

(** The address of the poster as the page gives it (lines 128-129). *)
Definition poster_src (soup : node) : string :=
  match Soup.find is_poster_img soup with
  | Some img_tag => Soup.get_or_empty "src" img_tag
  | None => EmptyString
  end.

(** Lists of characters that [PyStr.chars] can produce: every element is
    a byte followed by continuation bytes, and every element but the
    first begins with a byte that is not a continuation byte. *)
Fixpoint all_continuation (s : string) : bool :=
  match s with
  | EmptyString => true
  | String c s' => PyStr.is_continuation c && all_continuation s'
  end.

Definition is_chunk (ch : string) : bool :=
  match ch with
  | EmptyString => false
  | String _ cont => all_continuation cont
  end.

Definition starts_char (s : string) : bool :=
  match s with
  | EmptyString => true
  | String c _ => negb (PyStr.is_continuation c)
  end.

Definition is_full_char (ch : string) : bool := is_chunk ch && starts_char ch.

Definition proper (l : list string) : bool :=
  match l with
  | [] => true
  | ch :: l' => is_chunk ch && forallb is_full_char l'
  end.

(** The no-break space U+00A0 and the ideographic space U+3000. *)
Definition nbsp : string := PyStr.of_bytes [194; 160].

Definition ideographic_space : string := PyStr.of_bytes [227; 128; 128].

(** The key and the value one list item adds to [info] (lines 142-146). *)
Definition item_entry (item : node) : option (string * string) :=
  match Soup.find is_inline_b item with
  | Some b_tag =>
      let key := PyStr.rstrip_colon (PyStr.strip (Soup.text b_tag)) in
      Some (key,
            PyStr.strip (PyStr.replace_empty (key +:+ ":")
                           (Soup.get_text_strip item)))
  | None => None
  end.

(** Whether a call accepted by [p] was made, and whether one returned. *)
Definition attempted (p : call -> bool) (tr : list event) : bool :=
  existsb (fun ev => p (fst ev)) tr.

Definition returned (p : call -> bool) (tr : list event) : bool :=
  existsb (fun ev => p (fst ev) && snd ev) tr.

Definition is_playwright_start (c : call) : bool :=
  match c with PlaywrightStart => true | _ => false end.

Definition is_launch (c : call) : bool :=
  match c with FirefoxLaunch => true | _ => false end.

Definition is_new_context (c : call) : bool :=
  match c with NewContext => true | _ => false end.

Definition is_new_page (c : call) : bool :=
  match c with NewPage => true | _ => false end.

Definition is_page_close (c : call) : bool :=
  match c with PageClose => true | _ => false end.

Definition is_context_close (c : call) : bool :=
  match c with ContextClose => true | _ => false end.

Definition is_navigation (c : call) : bool :=
  match c with Goto _ | WaitNetworkIdle | PageContent => true | _ => false end.

Definition is_browser_call (c : call) : bool :=
  match c with
  | PlaywrightStart | FirefoxLaunch | NewContext | NewPage | Goto _
  | WaitNetworkIdle | PageContent | PageClose | ContextClose
  | BrowserClose | PlaywrightStop => true
  | _ => false
  end.

(** How many calls accepted by [p] were made. *)
Definition count_calls (p : call -> bool) (tr : list event) : nat :=
  List.length (List.filter (fun ev => p (fst ev)) tr).

(** Every stored result set holds between one and ten results. *)
Definition stored_sets_bounded (u : gmap Z UserEntry) : Prop :=
  forall uid entry,
    u !! uid = Some entry ->
    1 <= List.length (entry_results entry) <= 10.

(** A page on which none of the elements of a detail record is found. *)
Definition detail_page_blank (soup : node) : bool :=
  match Soup.find is_film_title soup, Soup.find is_poster_img soup,
        Soup.find is_rating_div soup, Soup.find_all is_list_item soup,
        Soup.find is_synopsis_div soup, Soup.find is_genres_li soup with
  | None, None, None, [], None, None => true
  | _, _, _, _, _, _ => false
  end.

(** The label a button would carry without the limit of 64 characters. *)
Definition full_label (drama : SearchResult) : string :=
  if PyStr.is_empty (sr_type_year drama) then sr_title drama
  else sr_title drama +:+ " (" +:+ sr_type_year drama +:+ ")".

(** Two stored results with the same id. *)
Definition twin_results : list SearchResult :=
  [mkSearchResult "1" "First" "https://mydramalist.com/1-first" "";
   mkSearchResult "2" "Second" "https://mydramalist.com/2-second" "";
   mkSearchResult "2" "Second again" "https://mydramalist.com/2-again" ""].

(** An info line of a detail page. *)
Definition info_line (label value : string) : node :=
  Tag "li" [("class", "list-item")]
    [Tag "b" [("class", "inline")] [NavigableString label];
     NavigableString value].

(** Two info lines with the same label. *)
Definition detail_page_twice : node :=
  sample_page
    [info_line "Country:" " Japan ";
     info_line "Type:" " Movie ";
     info_line "Country:" " South Korea "].

(** A world in which two users have a stored result set. *)
Definition two_users : world :=
  mkWorld None None
    {[ 7%Z := stored_entry; 8%Z := mkUserEntry twin_results "Second" ]}
    false [] 0.

(** A message that tells the user how the interaction ended (the two
    progress notices do not). *)
Definition final_message (m : message) : bool :=
  match m with
  | MsgSearching _ | MsgLoading => false
  | _ => true
  end.

(** A call that sends a text or a photo to the user. *)
Definition is_message_call (c : call) : bool :=
  match c with
  | ReplyText _ | EditText _ | SendPhoto _ _ _ => true
  | _ => false
  end.

(** A call into the chat client made by the handler of a click outside
    the delivery of the details. *)
Definition is_chat_reply (c : call) : bool :=
  match c with
  | Answer | EditText _ => true
  | _ => false
  end.

(** A final message or a photo that reached the user. *)
Definition outcome_delivered (ev : event) : bool :=
  match ev with
  | (ReplyText m, true) | (EditText m, true) => final_message m
  | (SendPhoto _ _ _, true) => true
  | _ => false
  end.

Definition told_outcome (tr : list event) : bool :=
  existsb outcome_delivered tr.

(* ===================================================================== *)
(** ** Strings *)
(* ===================================================================== *)

Local Open Scope list_scope.

Section StringFacts.

Lemma append_cons (c : ascii) (s t : string) :
  String c s +:+ t = String c (s +:+ t).
Proof. reflexivity. Qed.

Lemma append_empty_l (t : string) : EmptyString +:+ t = t.
Proof. reflexivity. Qed.

Lemma append_empty_r (s : string) : s +:+ EmptyString = s.
Proof.
  induction s as [|c s IH]; [reflexivity|]. now rewrite append_cons, IH.
Qed.

Lemma append_assoc (s t u : string) : (s +:+ t) +:+ u = s +:+ (t +:+ u).
Proof.
  induction s as [|c s IH]; [reflexivity|]. now rewrite !append_cons, IH.
Qed.

Lemma unchars_cons (ch : string) (l : list string) :
  PyStr.unchars (ch :: l) = ch +:+ PyStr.unchars l.
Proof.
  unfold PyStr.unchars, PyStr.join. destruct l as [|x l].
  - change (String.concat EmptyString [ch]) with ch.
    change (String.concat EmptyString []) with EmptyString.
    now rewrite append_empty_r.
  - reflexivity.
Qed.

Lemma unchars_app (l1 l2 : list string) :
  PyStr.unchars (l1 ++ l2) = PyStr.unchars l1 +:+ PyStr.unchars l2.
Proof.
  induction l1 as [|ch l1 IH]; [reflexivity|].
  rewrite <- app_comm_cons, !unchars_cons, IH. now rewrite append_assoc.
Qed.

(** The first character of a non-empty string begins with its first
    byte, and the characters after it are complete. *)
Lemma chars_cons (c : ascii) (s : string) :
  exists cont l,
    PyStr.chars (String c s) = String c cont :: l
    /\ all_continuation cont = true
    /\ forallb is_full_char l = true.
Proof.
  revert c. induction s as [|c' s IH]; intros c.
  - exists EmptyString, []. now repeat split.
  - destruct (IH c') as (cont & l & Heq & Hcont & Hl).
    change (PyStr.chars (String c (String c' s)))
      with (if PyStr.is_continuation c'
            then match PyStr.chars (String c' s) with
                 | ch :: l => String c ch :: l
                 | [] => [String c EmptyString]
                 end
            else String c EmptyString :: PyStr.chars (String c' s)).
    rewrite Heq. destruct (PyStr.is_continuation c') eqn:Hc'.
    + exists (String c' cont), l. simpl. now rewrite Hc', Hcont.
    + exists EmptyString, (String c' cont :: l).
      split; [reflexivity|]. split; [reflexivity|].
      cbn [forallb]. rewrite Hl, andb_true_r.
      unfold is_full_char. cbn [is_chunk starts_char].
      now rewrite Hcont, Hc'.
Qed.

Lemma chars_proper (s : string) : proper (PyStr.chars s) = true.
Proof.
  destruct s as [|c s]; [reflexivity|].
  destruct (chars_cons c s) as (cont & l & -> & Hcont & Hl).
  simpl. now rewrite Hcont, Hl.
Qed.

Lemma unchars_chars (s : string) : PyStr.unchars (PyStr.chars s) = s.
Proof.
  induction s as [|c s IH]; [reflexivity|].
  destruct s as [|c' s]; [reflexivity|].
  change (PyStr.chars (String c (String c' s)))
    with (if PyStr.is_continuation c'
          then match PyStr.chars (String c' s) with
               | ch :: l => String c ch :: l
               | [] => [String c EmptyString]
               end
          else String c EmptyString :: PyStr.chars (String c' s)).
  destruct (PyStr.is_continuation c').
  - destruct (PyStr.chars (String c' s)) as [|ch l] eqn:Hch.
    + destruct (chars_cons c' s) as (? & ? & H & _). congruence.
    + rewrite unchars_cons in IH |- *. now rewrite append_cons, IH.
  - rewrite unchars_cons, IH. reflexivity.
Qed.

Lemma chars_chunk_app (c : ascii) (cont t : string) :
  all_continuation cont = true -> starts_char t = true ->
  PyStr.chars (String c cont +:+ t) = String c cont :: PyStr.chars t.
Proof.
  revert c. induction cont as [|c1 cont IH]; intros c Hcont Ht.
  - rewrite ?append_cons, ?append_empty_l. destruct t as [|c' t]; [reflexivity|].
    simpl in Ht. apply negb_true_iff in Ht.
    change (PyStr.chars (String c (String c' t)))
      with (if PyStr.is_continuation c'
            then match PyStr.chars (String c' t) with
                 | ch :: l => String c ch :: l
                 | [] => [String c EmptyString]
                 end
            else String c EmptyString :: PyStr.chars (String c' t)).
    now rewrite Ht.
  - simpl in Hcont. apply andb_prop in Hcont as [Hc1 Hcont].
    rewrite ?append_cons, ?append_empty_l.
    change (PyStr.chars (String c (String c1 (cont +:+ t))))
      with (if PyStr.is_continuation c1
            then match PyStr.chars (String c1 (cont +:+ t)) with
                 | ch :: l => String c ch :: l
                 | [] => [String c EmptyString]
                 end
            else String c EmptyString :: PyStr.chars (String c1 (cont +:+ t))).
    rewrite Hc1.
    change (String c1 (cont +:+ t)) with (String c1 cont +:+ t).
    now rewrite (IH c1 Hcont Ht).
Qed.

Lemma starts_char_unchars (l : list string) :
  forallb is_full_char l = true -> starts_char (PyStr.unchars l) = true.
Proof.
  destruct l as [|ch l]; [reflexivity|]. simpl. intros H.
  apply andb_prop in H as [Hch _]. rewrite unchars_cons.
  unfold is_full_char in Hch. apply andb_prop in Hch as [Hchunk Hstart].
  destruct ch; [discriminate Hchunk|exact Hstart].
Qed.

Lemma chars_unchars_full (l : list string) :
  forallb is_full_char l = true -> PyStr.chars (PyStr.unchars l) = l.
Proof.
  induction l as [|ch l IH]; [reflexivity|]. simpl. intros H.
  apply andb_prop in H as [Hch Hl]. rewrite unchars_cons.
  unfold is_full_char in Hch. apply andb_prop in Hch as [Hchunk _].
  destruct ch as [|c cont]; [discriminate Hchunk|].
  rewrite chars_chunk_app, (IH Hl); auto using starts_char_unchars.
Qed.

(** The characters of the string made of a list of characters are that
    list. *)
Lemma chars_unchars (l : list string) :
  proper l = true -> PyStr.chars (PyStr.unchars l) = l.
Proof.
  destruct l as [|ch l]; [reflexivity|]. simpl. intros H.
  apply andb_prop in H as [Hchunk Hl]. rewrite unchars_cons.
  destruct ch as [|c cont]; [discriminate Hchunk|].
  rewrite chars_chunk_app, (chars_unchars_full l Hl);
    auto using starts_char_unchars.
Qed.

Lemma full_proper (l : list string) :
  forallb is_full_char l = true -> proper l = true.
Proof.
  destruct l as [|ch l]; [reflexivity|]. simpl. intros H.
  apply andb_prop in H as [Hch ->]. unfold is_full_char in Hch.
  apply andb_prop in Hch as [-> _]. reflexivity.
Qed.

Lemma proper_app (l1 l2 : list string) :
  proper (l1 ++ l2) = true -> proper l1 = true /\ proper l2 = true.
Proof.
  destruct l1 as [|ch l1]; [now split|]. simpl. intros H.
  apply andb_prop in H as [Hch Hl]. rewrite forallb_app in Hl.
  apply andb_prop in Hl as [Hl1 Hl2]. rewrite Hch, Hl1.
  split; [reflexivity|now apply full_proper].
Qed.

Lemma lstrip_chars_suffix (l : list string) :
  exists l0, l = l0 ++ PyStr.lstrip_chars l.
Proof.
  induction l as [|ch l [l0 IH]]; [now exists []|]. simpl.
  destruct (PyStr.isspace ch); [|now exists []].
  exists (ch :: l0). simpl. now rewrite <- IH.
Qed.

Lemma rstrip_chars_prefix (l : list string) :
  exists l2, l = PyStr.rstrip_chars l ++ l2.
Proof.
  induction l as [|ch l [l2 IH]]; [now exists []|]. simpl.
  destruct (PyStr.isspace ch && PyStr.is_nil (PyStr.rstrip_chars l)).
  - now exists (ch :: l).
  - exists l2. simpl. now rewrite <- IH.
Qed.

Lemma span_word_parts (l : list string) :
  l = fst (PyStr.span_word l) ++ snd (PyStr.span_word l).
Proof.
  induction l as [|ch l IH]; [reflexivity|]. simpl.
  destruct (PyStr.isspace ch); [reflexivity|].
  destruct (PyStr.span_word l) as [w r]. simpl in *. now rewrite <- IH.
Qed.

Lemma lstrip_chars_head (l : list string) :
  PyStr.lstrip_chars l = [] \/
  exists ch r, PyStr.lstrip_chars l = ch :: r /\ PyStr.isspace ch = false.
Proof.
  induction l as [|ch l IH]; simpl; [now left|].
  destruct (PyStr.isspace ch) eqn:Hch; [exact IH|].
  right. now exists ch, l.
Qed.

Lemma lstrip_chars_visible (l : list string) :
  existsb (fun ch => negb (PyStr.isspace ch)) l = true ->
  exists ch r, PyStr.lstrip_chars l = ch :: r /\ PyStr.isspace ch = false.
Proof.
  induction l as [|ch l IH]; simpl; [discriminate|].
  destruct (PyStr.isspace ch) eqn:Hch; simpl; [exact IH|].
  intros _. now exists ch, l.
Qed.

Lemma rstrip_chars_keeps_head (ch : string) (r : list string) :
  PyStr.isspace ch = false ->
  PyStr.rstrip_chars (ch :: r) = ch :: PyStr.rstrip_chars r.
Proof. intros Hch. simpl. now rewrite Hch. Qed.

Lemma rstrip_chars_idempotent (l : list string) :
  PyStr.rstrip_chars (PyStr.rstrip_chars l) = PyStr.rstrip_chars l.
Proof.
  induction l as [|ch l IH]; simpl; [reflexivity|].
  destruct (PyStr.isspace ch && PyStr.is_nil (PyStr.rstrip_chars l)) eqn:Hc;
    [reflexivity|].
  simpl. now rewrite IH, Hc.
Qed.

(** What is left of a proper list of characters after stripping. *)
Lemma stripped_proper (l : list string) :
  proper l = true ->
  proper (PyStr.rstrip_chars (PyStr.lstrip_chars l)) = true.
Proof.
  intros H. destruct (lstrip_chars_suffix l) as [l0 Hl0].
  destruct (rstrip_chars_prefix (PyStr.lstrip_chars l)) as [l2 Hl2].
  rewrite Hl0 in H. apply proper_app in H as [_ H].
  rewrite Hl2 in H. now apply proper_app in H as [H _].
Qed.

(** A text with a visible character is not stripped away. *)
Lemma strip_non_empty (s : string) :
  has_non_space s = true -> PyStr.strip s <> EmptyString.
Proof.
  unfold has_non_space, PyStr.strip. intros H.
  destruct (lstrip_chars_visible _ H) as (ch & r & Hl & Hch).
  pose proof (stripped_proper _ (chars_proper s)) as Hp.
  rewrite Hl, rstrip_chars_keeps_head in * by exact Hch.
  rewrite unchars_cons. simpl in Hp. apply andb_prop in Hp as [Hchunk _].
  destruct ch; [discriminate Hchunk|discriminate].
Qed.

Lemma prefix_empty (s : string) : String.prefix EmptyString s = true.
Proof. now destruct s. Qed.

(** Nothing is removed from a string in which [old] does not occur. *)
Lemma remove_from_absent (old s : string) :
  PyStr.contains old s = false -> PyStr.remove_from old 0 s = s.
Proof.
  induction s as [|c s IH]; simpl; [reflexivity|].
  intros H. apply orb_false_elim in H as [Hp Hc].
  rewrite Hp. f_equal. now apply IH.
Qed.

(** Stripping the tag of a site identifier leaves the identifier. *)
Lemma replace_site_identifier (x : string) :
  site_identifier x = true ->
  exists s, x = "mdl-" +:+ s /\ s <> EmptyString
            /\ PyStr.replace_empty "mdl-" x = s.
Proof.
  unfold site_identifier. intros H.
  repeat match type of H with
         | match ?y with _ => _ end = true =>
             destruct y; try discriminate H
         | (if ?b then _ else _) = true =>
             destruct b; try discriminate H
         end.
  apply andb_prop in H as [Hne Hc].
  apply negb_true_iff in Hc.
  exists x. split; [reflexivity|]. split.
  - destruct x; [discriminate Hne|discriminate].
  - unfold PyStr.replace_empty. simpl. rewrite prefix_empty.
    now apply remove_from_absent.
Qed.

(** The selector of a button gives the identifier back when the
    identifier does not contain the selector tag. *)
Lemma selector_round_trip (drama_id : string) :
  PyStr.contains "mdl_" drama_id = false ->
  PyStr.replace_empty "mdl_" ("mdl_" +:+ drama_id) = drama_id.
Proof.
  intros H. unfold PyStr.replace_empty. simpl. rewrite prefix_empty.
  now apply remove_from_absent.
Qed.

End StringFacts.

(* ===================================================================== *)
(** ** The search results *)
(* ===================================================================== *)

Section SearchResults.

Lemma fold_search_step (l : list node) (acc : list SearchResult) :
  fold_left search_step l acc = acc ++ omap box_result l.
Proof.
  revert acc. induction l as [|box l IH]; intros acc; csimpl.
  - now rewrite app_nil_r.
  - rewrite IH. unfold search_step, box_result.
    destruct (Soup.find is_title_h6 box) as [title_tag|]; [|reflexivity].
    destruct (Soup.find (Soup.has_name "a") title_tag); [|reflexivity].
    now rewrite <- app_assoc.
Qed.

(** The loop keeps, in order, what the first ten containers yield. *)
Lemma search_results_scan (soup : node) :
  search_results soup = omap box_result (take 10 (drama_boxes soup)).
Proof. unfold search_results. now rewrite fold_search_step. Qed.

Lemma length_omap_le {A B} (f : A -> option B) (l : list A) :
  List.length (omap f l) <= List.length l.
Proof.
  induction l as [|a l IH]; csimpl; [lia|].
  destruct (f a); simpl; lia.
Qed.

Lemma length_omap_filter (l : list node) :
  List.length (omap box_result l)
  = List.length (List.filter has_title_and_anchor l).
Proof.
  induction l as [|b l IH]; csimpl; [reflexivity|].
  unfold has_title_and_anchor at 1.
  destruct (box_result b); simpl; now rewrite IH.
Qed.

Lemma omap_all_some {A B} (f : A -> option B) (l : list A) :
  Forall (fun a => is_Some (f a)) l ->
  Forall2 (fun a b => f a = Some b) l (omap f l).
Proof.
  induction 1 as [|a l [b Hb] _ IH]; csimpl; [constructor|].
  rewrite Hb. now constructor.
Qed.

Lemma well_formed_box_result (box : node) :
  well_formed_box box = true ->
  exists r, box_result box = Some r
            /\ sr_id r <> EmptyString
            /\ sr_title r <> EmptyString
            /\ sr_url r <> EmptyString.
Proof.
  unfold well_formed_box, box_result.
  destruct (Soup.find is_title_h6 box) as [title_tag|]; [|discriminate].
  destruct (Soup.find (Soup.has_name "a") title_tag) as [link_tag|];
    [|discriminate].
  intros H. apply andb_prop in H as [Htext Hid].
  eexists. split; [reflexivity|]. simpl. split; [|split].
  - destruct (replace_site_identifier _ Hid) as (s & _ & Hs & ->). exact Hs.
  - now apply strip_non_empty.
  - discriminate.
Qed.

End SearchResults.

(** C2. On a well-formed page (every matching container has a title
    element with an anchor whose text is not blank, and an identifier
    made of the tag and a non-empty site identifier) with N matching
    containers, the search returns min(N, 10) entries, the i-th entry
    being the one extracted from the i-th container, and every entry has
    a non-empty id, title and URL. *)
Theorem search_results_well_formed (soup : node) :
  well_formed_page soup = true ->
  List.length (search_results soup)
  = Nat.min (List.length (drama_boxes soup)) 10
  /\ Forall2 (fun box r => box_result box = Some r)
       (take 10 (drama_boxes soup)) (search_results soup)
  /\ Forall (fun r => sr_id r <> EmptyString
                      /\ sr_title r <> EmptyString
                      /\ sr_url r <> EmptyString)
       (search_results soup).
Proof.
  unfold well_formed_page. intros Hwf.
  pose proof (proj1 (forallb_forall _ _) Hwf) as Hall. clear Hwf.
  assert (Hten : Forall (fun b => well_formed_box b = true)
                   (take 10 (drama_boxes soup))).
  { apply Forall_forall. intros b Hb. apply Hall, list_elem_of_In.
    eapply subseteq_take, Hb. }
  assert (H2 : Forall2 (fun box r => box_result box = Some r)
                 (take 10 (drama_boxes soup)) (search_results soup)).
  { rewrite search_results_scan. apply omap_all_some.
    eapply Forall_impl; [exact Hten|]. intros b Hb. simpl in Hb.
    destruct (well_formed_box_result b Hb) as (r & Hr & _). now exists r. }
  split; [|split].
  - rewrite <- (Forall2_length _ _ _ H2), length_take. lia.
  - exact H2.
  - clear Hall. induction H2 as [|b r bs rs Hbr _ IH]; [constructor|].
    apply Forall_cons in Hten as [Hb Hbs]. constructor; [|now apply IH].
    destruct (well_formed_box_result b Hb) as (r' & Hr' & Hfields).
    congruence.
Qed.

Lemma search_results_well_formed_witness :
  well_formed_page page_three = true
  /\ List.length (search_results page_three) = 3
  /\ map sr_id (search_results page_three) = ["12345"; "67890"; "11111"].
Proof.
  split; [reflexivity|].
  destruct (search_results_well_formed page_three eq_refl) as (Hlen & _ & _).
  split; [exact Hlen | reflexivity].
Defined.

(** C3, as the code has it. The scan, not the output, is capped: only
    the first ten matching containers are looked at. Those among them
    that lack the title element or its anchor are skipped, the others
    yield one entry each, in document order; a container after the
    tenth never contributes. *)
Theorem search_results_scan_is_capped (soup : node) :
  search_results soup = omap box_result (take 10 (drama_boxes soup))
  /\ List.length (search_results soup)
     = List.length (List.filter has_title_and_anchor
                      (take 10 (drama_boxes soup)))
  /\ List.length (search_results soup) <= 10.
Proof.
  rewrite search_results_scan. split; [reflexivity|]. split.
  - apply length_omap_filter.
  - etransitivity; [apply length_omap_le|]. rewrite length_take. lia.
Qed.

(** C3 as stated fails: with an incomplete container among the first ten
    and ten complete ones on the page, nine entries come back, not the
    first ten complete ones; the eleventh container is left out. *)
Lemma search_results_cap_counterexample :
  List.length (drama_boxes page_eleven) = 11
  /\ List.length (List.filter has_title_and_anchor (drama_boxes page_eleven)) = 10
  /\ List.length (search_results page_eleven) = 9
  /\ ~ In "210" (map sr_id (search_results page_eleven))
  /\ search_results page_eleven
     <> take 10 (omap box_result (drama_boxes page_eleven)).
Proof.
  split; [reflexivity|]. split; [reflexivity|]. split; [reflexivity|]. split.
  - vm_compute. intuition discriminate.
  - intros H. apply (f_equal (@List.length _)) in H.
    vm_compute in H. discriminate H.
Qed.

(* ===================================================================== *)
(** ** The detail record *)
(* ===================================================================== *)

Section DetailFacts.

(** The record is produced exactly when the rating did not raise. *)
Lemma extract_details_rating (soup : node) (drama_url : string) :
  match extract_rating soup with
  | inl e => extract_details soup drama_url = inl e
  | inr rating =>
      exists d, extract_details soup drama_url = inr d
                /\ d_rating d = rating
                /\ d_title d = extract_title soup
                /\ d_image_url d = extract_image_url soup
                /\ d_url d = drama_url
  end.
Proof.
  unfold extract_details. destruct (extract_rating soup) as [e|rating].
  - reflexivity.
  - destruct (extract_synopsis soup) as [synopsis soup'].
    eexists. split; [reflexivity|]. simpl. auto.
Qed.

Lemma extract_title_default (soup : node) :
  Soup.find is_film_title soup = None -> extract_title soup = "Unknown".
Proof. unfold extract_title. now intros ->. Qed.

Lemma extract_image_default (soup : node) :
  Soup.find is_poster_img soup = None -> extract_image_url soup = EmptyString.
Proof. unfold extract_image_url. now intros ->. Qed.

Lemma extract_rating_default (soup : node) :
  Soup.find is_rating_div soup = None -> extract_rating soup = inr "N/A".
Proof. unfold extract_rating. now intros ->. Qed.

Lemma info_get_default (info : gmap string string) (k1 k2 : string) :
  info !! k1 = None -> info !! k2 = None -> info_get info k1 k2 = "N/A".
Proof. unfold info_get. now intros -> ->. Qed.

(** A rating container without its inner element raises. *)
Lemma extract_rating_bare (soup rating_div : node) :
  Soup.find is_rating_div soup = Some rating_div ->
  Soup.find is_box_div rating_div = None ->
  extract_rating soup = inl AttributeError.
Proof. unfold extract_rating. now intros -> ->. Qed.

End DetailFacts.

(* ===================================================================== *)
(** ** Measures of a trace *)
(* ===================================================================== *)

Section TraceFacts.

Lemma segment_app (w w' : world) (seg : list event) :
  trace w' = trace w ++ seg -> segment w w' = seg.
Proof. unfold segment. intros ->. apply drop_app_length. Qed.

Lemma count_closes_app (s1 s2 : list event) :
  count_closes (s1 ++ s2) = count_closes s1 + count_closes s2.
Proof. unfold count_closes. now rewrite List.filter_app, length_app. Qed.

Lemma opened_app (s1 s2 : list event) :
  opened (s1 ++ s2) = opened s1 || opened s2.
Proof. apply existsb_app. Qed.

Lemma gotos_app (s1 s2 : list event) :
  gotos (s1 ++ s2) = gotos s1 ++ gotos s2.
Proof. apply omap_app. Qed.

Lemma ranks_le_app rank k (s1 s2 : list event) :
  ranks_le rank k (s1 ++ s2) = ranks_le rank k s1 && ranks_le rank k s2.
Proof. apply forallb_app. Qed.

Lemma ranks_ge_app rank k (s1 s2 : list event) :
  ranks_ge rank k (s1 ++ s2) = ranks_ge rank k s1 && ranks_ge rank k s2.
Proof. apply forallb_app. Qed.

Lemma only_app s (s1 s2 : list event) :
  only s (s1 ++ s2) = only s s1 && only s s2.
Proof. apply forallb_app. Qed.

Lemma called_app c (s1 s2 : list event) :
  called c (s1 ++ s2) <-> called c s1 \/ called c s2.
Proof.
  unfold called. split.
  - intros [ok H]. apply in_app_or in H as [H|H]; eauto.
  - intros [[ok H]|[ok H]]; exists ok; apply in_or_app; auto.
Qed.

Lemma ranks_ge_weaken rank k k' (tr : list event) :
  k' <= k -> ranks_ge rank k tr = true -> ranks_ge rank k' tr = true.
Proof.
  intros Hk. unfold ranks_ge. rewrite !forallb_forall.
  intros H ev Hev. specialize (H ev Hev). unfold on_stage in *.
  destruct (stage_of (fst ev)); [|reflexivity].
  apply Nat.leb_le in H. apply Nat.leb_le. lia.
Qed.

Lemma ranks_le_weaken rank k k' (tr : list event) :
  k <= k' -> ranks_le rank k tr = true -> ranks_le rank k' tr = true.
Proof.
  intros Hk. unfold ranks_le. rewrite !forallb_forall.
  intros H ev Hev. specialize (H ev Hev). unfold on_stage in *.
  destruct (stage_of (fst ev)); [|reflexivity].
  apply Nat.leb_le in H. apply Nat.leb_le. lia.
Qed.

(** Two ordered pieces, the first below [k] and the second above it,
    make an ordered trace. *)
Lemma ordered_app rank k (s1 s2 : list event) :
  ordered rank s1 = true -> ordered rank s2 = true ->
  ranks_le rank k s1 = true -> ranks_ge rank k s2 = true ->
  ordered rank (s1 ++ s2) = true.
Proof.
  intros H1 H2 Hle Hge. induction s1 as [|ev s1 IH]; simpl in *; [exact H2|].
  apply andb_prop in H1 as [Hev H1]. apply andb_prop in Hle as [Hk Hle].
  rewrite (IH H1 Hle), andb_true_r.
  unfold on_stage in Hk. destruct (stage_of (fst ev)) as [s|]; [|reflexivity].
  rewrite ranks_ge_app, Hev. simpl.
  apply Nat.leb_le in Hk. eapply ranks_ge_weaken; eauto.
Qed.

(** A piece whose staged events all have the same stage. *)
Lemma only_ordered rank s (tr : list event) :
  only s tr = true ->
  ordered rank tr = true
  /\ ranks_le rank (rank s) tr = true
  /\ ranks_ge rank (rank s) tr = true.
Proof.
  induction tr as [|ev tr IH]; simpl; [auto|].
  intros H. apply andb_prop in H as [Hev H].
  destruct (IH H) as (Ho & Hle & Hge). rewrite Ho, Hle, Hge, !andb_true_r.
  unfold on_stage in *. destruct (stage_of (fst ev)) as [s'|]; [|auto].
  assert (s = s') as <- by (destruct s, s'; (reflexivity || discriminate)).
  rewrite Hge, Nat.leb_refl. auto.
Qed.

Lemma only_not_called s c (tr : list event) :
  only s tr = true ->
  (forall s', stage_of c = Some s' -> stage_eqb s s' = false) ->
  stage_of c <> None ->
  ~ called c tr.
Proof.
  unfold only. rewrite forallb_forall. intros H Hc Hn [ok Hin].
  specialize (H _ Hin). unfold on_stage in H. simpl in H.
  destruct (stage_of c) as [s'|]; [|congruence].
  rewrite (Hc s' eq_refl) in H. discriminate.
Qed.

(** In an ordered trace the stages come in the order of their ranks. *)
Lemma ordered_precedes rank (tr : list event) (a b : stage) :
  ordered rank tr = true -> rank a < rank b -> precedes a b tr.
Proof.
  intros Ho Hab. induction tr as [|ev tr IH]; intros i j x y Hi Hj Ha Hb.
  - discriminate Hi.
  - simpl in Ho. apply andb_prop in Ho as [Hev Ho].
    destruct i as [|i], j as [|j]; simpl in *.
    + exfalso. simplify_eq. lia.
    + lia.
    + simplify_eq. rewrite Hb in Hev.
      unfold ranks_ge in Hev. rewrite forallb_forall in Hev.
      apply list_elem_of_lookup_2, list_elem_of_In in Hi.
      specialize (Hev _ Hi). unfold on_stage in Hev. rewrite Ha in Hev.
      apply Nat.leb_le in Hev. lia.
    + specialize (IH Ho i j x y Hi Hj Ha Hb). lia.
Qed.

End TraceFacts.

Create Rewrite HintDb trace_db.
#[local] Hint Rewrite count_closes_app opened_app gotos_app ranks_le_app
  ranks_ge_app only_app : trace_db.

(* ===================================================================== *)
(** ** The scraper *)
(* ===================================================================== *)

Section Scraper.

Variable E : env.

(** [close] never raises, clears both handles, tells the browser to
    close once if there was one, and touches nothing else. *)
Lemma close_run (w : world) :
  exists w' seg,
    close E w = (Ok tt, w')
    /\ trace w' = trace w ++ seg
    /\ browser w' = None /\ playwright w' = None
    /\ user_data w' = user_data w
    /\ message_deleted w' = message_deleted w
    /\ count_closes seg = (if live w then 1 else 0)
    /\ opened seg = false
    /\ gotos seg = []
    /\ only Close seg = true.
Proof.
  destruct w as [b p u d tr c]. unfold close.
  destruct b, p; unfold_run; repeat (next_call E; unfold_run);
    do 2 eexists; leaf.
Qed.

(** [_get_page_content] navigates at most once, to [url], closes
    nothing, and leaves a browser behind when it launched one. *)
Lemma get_page_content_run (url : string) (w : world) :
  exists r w' seg,
    _get_page_content E url w = (r, w')
    /\ trace w' = trace w ++ seg
    /\ user_data w' = user_data w
    /\ message_deleted w' = message_deleted w
    /\ count_closes seg = 0
    /\ live w' = live w || opened seg
    /\ (gotos seg = [] \/ gotos seg = [url])
    /\ only Fetch seg = true
    /\ (forall soup, r = Ok (Some soup) -> web E url = Some soup).
Proof.
  destruct w as [b p u d tr c]. unfold _get_page_content, _ensure_browser.
  destruct b; unfold_run; repeat (next_call E; unfold_run);
    do 3 eexists; leaf.
Qed.

Lemma fetch_then_parse rank (s1 : list event) :
  fetch_parse_rank rank -> only Fetch s1 = true ->
  ordered rank (s1 ++ [(BeautifulSoup, true)]) = true
  /\ ranks_le rank 1 (s1 ++ [(BeautifulSoup, true)]) = true.
Proof.
  intros [Hf Hp] H1. destruct (only_ordered rank _ _ H1) as (Ho & Hle & _).
  rewrite Hf in Hle. split.
  - apply (ordered_app rank 0); auto.
  - rewrite ranks_le_app, (ranks_le_weaken rank 0 1 s1) by (auto; lia).
    unfold ranks_le, on_stage. simpl. now rewrite Hp.
Qed.

Lemma fetch_only rank (s1 : list event) :
  fetch_parse_rank rank -> only Fetch s1 = true ->
  ordered rank s1 = true /\ ranks_le rank 1 s1 = true.
Proof.
  intros Hr H1. destruct (fetch_then_parse rank s1 Hr H1) as [Ho Hle].
  rewrite ranks_le_app in Hle. apply andb_prop in Hle as [Hle _].
  split; [|exact Hle].
  destruct (only_ordered rank _ _ H1) as (Ho1 & _). exact Ho1.
Qed.

Lemma only_fetch_no_parse (s1 : list event) :
  only Fetch s1 = true -> ~ called BeautifulSoup s1.
Proof.
  intros H. eapply only_not_called; [exact H| |discriminate].
  simpl. intros s' [= <-]. reflexivity.
Qed.

(** [search_dramas] never raises; it parses exactly when the page
    content came back, and returns no result otherwise. *)
Lemma search_dramas_run (q : string) (w : world) :
  exists rs w' seg,
    search_dramas E q w = (Ok rs, w')
    /\ trace w' = trace w ++ seg
    /\ user_data w' = user_data w
    /\ message_deleted w' = message_deleted w
    /\ count_closes seg = 0
    /\ live w' = live w || opened seg
    /\ (gotos seg = [] \/ gotos seg = [search_url q])
    /\ (forall rank, fetch_parse_rank rank ->
          ordered rank seg = true /\ ranks_le rank 1 seg = true)
    /\ match fst (_get_page_content E (search_url q) w) with
       | Ok (Some soup) =>
           rs = search_results soup /\ called BeautifulSoup seg
       | _ => rs = [] /\ ~ called BeautifulSoup seg
       end.
Proof.
  unfold search_dramas, try_except, bind.
  destruct (get_page_content_run (search_url q) w)
    as (r & w1 & s1 & Heq & Htr & Hu & Hd & Hc & Hl & Hg & Hf & Hweb).
  rewrite Heq. cbn [fst].
  destruct r as [[soup|]|e]; unfold note, ret.
  - exists (search_results soup), (log BeautifulSoup true w1),
      (s1 ++ [(BeautifulSoup, true)]).
    split; [reflexivity|].
    split; [cbn [trace log]; now rewrite Htr, <- app_assoc|].
    split; [exact Hu|]. split; [exact Hd|].
    split; [autorewrite with trace_db; now rewrite Hc|].
    split; [change (live (log BeautifulSoup true w1)) with (live w1);
            autorewrite with trace_db; cbn; now rewrite orb_false_r|].
    split; [autorewrite with trace_db; cbn; now rewrite app_nil_r|].
    split; [intros rank Hr; now apply fetch_then_parse|].
    split; [reflexivity|].
    apply called_app. right. exists true. now left.
  - exists [], w1, s1. repeat split; auto;
      solve [now apply fetch_only | now apply only_fetch_no_parse].
  - exists [], w1, s1. repeat split; auto;
      solve [now apply fetch_only | now apply only_fetch_no_parse].
Qed.

(** [get_drama_details] never raises either: a failure of the
    extraction becomes [None]. *)
Lemma get_drama_details_run (url : string) (w : world) :
  exists r w' seg,
    get_drama_details E url w = (Ok r, w')
    /\ trace w' = trace w ++ seg
    /\ user_data w' = user_data w
    /\ message_deleted w' = message_deleted w
    /\ count_closes seg = 0
    /\ live w' = live w || opened seg
    /\ (gotos seg = [] \/ gotos seg = [url])
    /\ (forall rank, fetch_parse_rank rank ->
          ordered rank seg = true /\ ranks_le rank 1 seg = true)
    /\ match fst (_get_page_content E url w) with
       | Ok (Some soup) =>
           called BeautifulSoup seg
           /\ r = match extract_details soup url with
                  | inl _ => None
                  | inr d => Some d
                  end
       | _ => r = None /\ ~ called BeautifulSoup seg
       end.
Proof.
  unfold get_drama_details, try_except, bind.
  destruct (get_page_content_run url w)
    as (r & w1 & s1 & Heq & Htr & Hu & Hd & Hc & Hl & Hg & Hf & Hweb).
  rewrite Heq. cbn [fst].
  destruct r as [[soup|]|e]; unfold note, ret, raise.
  - exists (match extract_details soup url with
            | inl _ => None | inr d => Some d end),
      (log BeautifulSoup true w1), (s1 ++ [(BeautifulSoup, true)]).
    split; [now destruct (extract_details soup url)|].
    split; [cbn [trace log]; now rewrite Htr, <- app_assoc|].
    split; [exact Hu|]. split; [exact Hd|].
    split; [autorewrite with trace_db; now rewrite Hc|].
    split; [change (live (log BeautifulSoup true w1)) with (live w1);
            autorewrite with trace_db; cbn; now rewrite orb_false_r|].
    split; [autorewrite with trace_db; cbn; now rewrite app_nil_r|].
    split; [intros rank Hr; now apply fetch_then_parse|].
    split; [|reflexivity].
    apply called_app. right. exists true. now left.
  - exists None, w1, s1. repeat split; auto;
      solve [now apply fetch_only | now apply only_fetch_no_parse].
  - exists None, w1, s1. repeat split; auto;
      solve [now apply fetch_only | now apply only_fetch_no_parse].
Qed.

End Scraper.

(* ===================================================================== *)
(** ** The handlers *)
(* ===================================================================== *)

Section Handlers.
Variable E : env.

Lemma close_noop (w : world) :
  browser w = None -> playwright w = None -> close E w = (Ok tt, w).
Proof.
  destruct w as [b p u d tr c]. simpl. intros -> ->. reflexivity.
Qed.

Lemma search_interaction_run (uid : Z) (q : string) (w : world) :
  exists r w' seg rs,
    search_interaction E uid q w = (r, w')
    /\ trace w' = trace w ++ seg
    /\ fst (search_dramas E q w) = Ok rs
    /\ live w' = false
    /\ message_deleted w' = message_deleted w
    /\ user_data w' = match rs with
                      | [] => user_data w
                      | _ => <[uid := mkUserEntry rs q]> (user_data w)
                      end
    /\ count_closes seg = (if live w || opened seg then 1 else 0)
    /\ ordered search_rank seg = true
    /\ (gotos seg = [] \/ gotos seg = [search_url q])
    /\ match fst (_get_page_content E (search_url q) w) with
       | Ok (Some soup) => called BeautifulSoup seg
       | _ => ~ called BeautifulSoup seg
              /\ called (EditText (MsgNoResults q)) seg
       end.
Proof.
  unfold search_interaction, try_except, bind.
  destruct (search_dramas_run E q w)
    as (rs & w1 & s1 & Heq1 & Htr1 & Hu1 & Hd1 & Hc1 & Hl1 & Hg1 & Hr1 & Hp1).
  rewrite Heq1.
  destruct (close_run E w1)
    as (w2 & s2 & Heq2 & Htr2 & Hb2 & Hp2 & Hu2 & Hd2 & Hc2 & Ho2 & Hg2 & Hs2).
  rewrite Heq2.
  assert (Hlive2 : forall c ok, live (log c ok w2) = false)
    by (intros; unfold live; cbn; now rewrite Hb2).
  assert (Hord : forall tail,
             ordered search_rank tail = true ->
             ranks_ge search_rank 3 tail = true ->
             ordered search_rank (s1 ++ s2 ++ tail) = true).
  { intros tail Ht Hge.
    destruct (Hr1 search_rank (conj eq_refl eq_refl)) as [Ho1 Hle1].
    destruct (only_ordered search_rank _ _ Hs2) as (Ho2' & Hle2 & Hge2).
    apply (ordered_app search_rank 1); auto.
    - apply (ordered_app search_rank 2); auto.
      eapply ranks_ge_weaken; [|exact Hge]. lia.
    - rewrite ranks_ge_app.
      rewrite (ranks_ge_weaken search_rank 2 1 s2) by (auto; simpl; lia).
      eapply ranks_ge_weaken; [|exact Hge]. lia. }
  assert (Hcount : forall tail,
             count_closes tail = 0 -> opened tail = false ->
             count_closes (s1 ++ s2 ++ tail)
             = if live w || opened (s1 ++ s2 ++ tail) then 1 else 0).
  { intros tail Hc Ho. autorewrite with trace_db.
    rewrite Hc1, Hc2, Hl1, Ho2, Hc, Ho, !orb_false_r.
    destruct (live w || opened s1); reflexivity. }
  assert (Hgoto : forall tail,
             gotos tail = [] ->
             gotos (s1 ++ s2 ++ tail) = []
             \/ gotos (s1 ++ s2 ++ tail) = [search_url q]).
  { intros tail Ht. autorewrite with trace_db.
    rewrite Hg2, Ht, !app_nil_r. exact Hg1. }
  assert (Hnoparse : forall tail,
             ~ called BeautifulSoup s1 -> ~ called BeautifulSoup tail ->
             ~ called BeautifulSoup (s1 ++ s2 ++ tail)).
  { intros tail H1 Ht H. apply called_app in H as [H|H]; [tauto|].
    apply called_app in H as [H|H]; [|tauto].
    revert H. eapply only_not_called; [exact Hs2| |discriminate].
    simpl. intros s' [= <-]. reflexivity. }
  assert (Hparsed : forall tail,
             called BeautifulSoup s1 ->
             called BeautifulSoup (s1 ++ s2 ++ tail)).
  { intros tail H. apply called_app. now left. }
  assert (Hsent : forall m ok tail,
             called (EditText m) (s1 ++ s2 ++ (EditText m, ok) :: tail)).
  { intros m ok tail. apply called_app. right. apply called_app. right.
    exists ok. now left. }
  destruct rs as [|r0 rs']; unfold ext, modify; cbn [clock log set_user_data];
    (next_call E;
     [rewrite close_noop by (cbn; assumption);
      cbn [clock log set_user_data]; next_call E|]);
    do 4 eexists;
    (split; [reflexivity|]);
    (split; [cbn [trace log set_user_data];
             rewrite Htr2, Htr1, <- !app_assoc; reflexivity|]);
    (split; [reflexivity|]);
    (split; [unfold live; cbn [browser log set_user_data];
             now rewrite Hb2|]);
    (split; [cbn [message_deleted log set_user_data]; congruence|]);
    (split; [cbn [user_data log set_user_data]; congruence|]);
    (split; [apply Hcount; reflexivity|]);
    (split; [apply Hord; reflexivity|]);
    (split; [apply Hgoto; reflexivity|]);
    destruct (fst (_get_page_content E (search_url q) w)) as [[soup|]|e];
    destruct Hp1 as [Hrs Hbs]; try discriminate Hrs;
    try (apply Hparsed; exact Hbs);
    (split; [apply Hnoparse; [exact Hbs|];
             intros [ok Hin]; simpl in Hin; intuition discriminate
            | apply Hsent]).
Qed.

(** The delivery of the details: when it returns, the scraper has been
    closed; when it raises, nothing has been closed yet and only
    renderings were attempted. *)
Lemma send_details_run (details : Details) (w : world) :
  exists r w' seg,
    send_details E details w = (r, w')
    /\ trace w' = trace w ++ seg
    /\ user_data w' = user_data w
    /\ opened seg = false
    /\ gotos seg = []
    /\ ordered detail_rank seg = true
    /\ ranks_ge detail_rank 2 seg = true
    /\ match r with
       | Ok _ =>
           browser w' = None /\ playwright w' = None
           /\ count_closes seg = (if live w then 1 else 0)
       | Raise _ =>
           browser w' = browser w /\ playwright w' = playwright w
           /\ count_closes seg = 0
           /\ ranks_le detail_rank 2 seg = true
       end.
Proof.
  destruct w as [b p u d tr c]. unfold send_details, close.
  destruct (PyStr.is_empty (d_image_url details)), b, p, d;
    cbn [negb]; unfold_run; repeat (next_call E; unfold_run);
    do 3 eexists;
    (split; [reflexivity|]); (split; [trace_eq|]);
    cbn beta iota; repeat split; reflexivity.
Qed.

Lemma edit_callback_run (m : message) (w : world) :
  exists r ok, edit_callback_message E m w = (r, log (EditText m) ok w).
Proof.
  unfold edit_callback_message, ext.
  destruct (message_deleted w), (raises E (clock w)); eauto.
Qed.

Lemma ext_run (c : call) (w : world) :
  exists r ok, ext E c w = (r, log c ok w).
Proof. unfold ext. destruct (raises E (clock w)); eauto. Qed.

Lemma live_log (c : call) (ok : bool) (w : world) :
  live (log c ok w) = live w.
Proof. reflexivity. Qed.

Lemma live_of_browser (w w' : world) :
  browser w' = browser w -> live w' = live w.
Proof. unfold live. now intros ->. Qed.

Lemma live_none (w : world) : browser w = None -> live w = false.
Proof. unfold live. now intros ->. Qed.

(** The detail interaction always ends with the scraper closed, and
    tells the browser to close once if there was or came to be one. *)
Lemma details_interaction_run (url : string) (w : world) :
  exists r w' seg,
    details_interaction E url w = (r, w')
    /\ trace w' = trace w ++ seg
    /\ user_data w' = user_data w
    /\ live w' = false
    /\ count_closes seg = (if live w || opened seg then 1 else 0)
    /\ ordered detail_rank seg = true
    /\ (gotos seg = [] \/ gotos seg = [url]).
Proof.
  unfold details_interaction, try_except, bind.
  destruct (get_drama_details_run E url w)
    as (r1 & w1 & s1 & Heq1 & Htr1 & Hu1 & Hd1 & Hc1 & Hl1 & Hg1 & Hr1 & _).
  rewrite Heq1.
  destruct (Hr1 detail_rank (conj eq_refl eq_refl)) as [Ho1 Hle1].
  assert (Hord : forall tail,
             ordered detail_rank tail = true ->
             ranks_ge detail_rank 2 tail = true ->
             ordered detail_rank (s1 ++ tail) = true).
  { intros tail Ht Hge. apply (ordered_app detail_rank 1); auto.
    eapply ranks_ge_weaken; [|exact Hge]. lia. }
  assert (Hgoto : forall tail,
             gotos tail = [] ->
             gotos (s1 ++ tail) = [] \/ gotos (s1 ++ tail) = [url]).
  { intros tail Ht. autorewrite with trace_db. now rewrite Ht, !app_nil_r. }
  assert (Hcount : forall tail,
             count_closes tail = (if live w1 then 1 else 0) ->
             opened tail = false ->
             count_closes (s1 ++ tail)
             = if live w || opened (s1 ++ tail) then 1 else 0).
  { intros tail Hc Ho. autorewrite with trace_db.
    now rewrite Hc1, Hc, Ho, Hl1, orb_false_r. }
  destruct r1 as [details|].
  - (* the details are there *)
    destruct (send_details_run details w1)
      as (r2 & w2 & s2 & Heq2 & Htr2 & Hu2 & Hop2 & Hg2 & Ho2 & Hge2 & Hr2).
    rewrite Heq2. destruct r2 as [[]|e].
    + destruct Hr2 as (Hb2 & Hp2 & Hc2).
      exists (Ok tt), w2, (s1 ++ s2).
      split; [reflexivity|].
      split; [now rewrite Htr2, Htr1, <- app_assoc|].
      split; [congruence|].
      split; [now apply live_none|].
      split; [now apply Hcount|].
      split; [now apply Hord|now apply Hgoto].
    + destruct Hr2 as (Hb2 & Hp2 & Hc2 & Hle2).
      destruct (close_run E w2)
        as (w3 & s3 & Heq3 & Htr3 & Hb3 & Hp3 & Hu3 & Hd3 & Hc3 & Hop3 & Hg3 & Hs3).
      rewrite Heq3.
      destruct (edit_callback_run MsgDetailsError w3) as (r4 & ok4 & Heq4).
      rewrite Heq4.
      destruct (only_ordered detail_rank _ _ Hs3) as (Ho3 & Hle3 & Hge3).
      exists r4, (log (EditText MsgDetailsError) ok4 w3),
        (s1 ++ s2 ++ s3 ++ [(EditText MsgDetailsError, ok4)]).
      split; [reflexivity|].
      split; [cbn [trace log]; now rewrite Htr3, Htr2, Htr1, <- !app_assoc|].
      split; [cbn [user_data log]; congruence|].
      split; [rewrite live_log; now apply live_none|].
      split.
      { apply Hcount.
        - autorewrite with trace_db.
          rewrite Hc2, Hc3, (live_of_browser _ _ Hb2). cbn. lia.
        - autorewrite with trace_db. now rewrite Hop2, Hop3. }
      split.
      { apply Hord.
        - apply (ordered_app detail_rank 2); auto.
          + apply (ordered_app detail_rank 3); auto.
          + rewrite ranks_ge_app.
            now rewrite (ranks_ge_weaken detail_rank 3 2 s3) by (auto; lia).
        - rewrite !ranks_ge_app, Hge2.
          now rewrite (ranks_ge_weaken detail_rank 3 2 s3) by (auto; lia). }
      apply Hgoto. autorewrite with trace_db. now rewrite Hg2, Hg3.
  - (* no details *)
    destruct (close_run E w1)
      as (w3 & s3 & Heq3 & Htr3 & Hb3 & Hp3 & Hu3 & Hd3 & Hc3 & Hop3 & Hg3 & Hs3).
    rewrite Heq3.
    destruct (only_ordered detail_rank _ _ Hs3) as (Ho3 & Hle3 & Hge3).
    destruct (edit_callback_run MsgNoDetails w3) as (r4 & ok4 & Heq4).
    rewrite Heq4. destruct r4 as [[]|e].
    + exists (Ok tt), (log (EditText MsgNoDetails) ok4 w3),
        (s1 ++ s3 ++ [(EditText MsgNoDetails, ok4)]).
      split; [reflexivity|].
      split; [cbn [trace log]; now rewrite Htr3, Htr1, <- !app_assoc|].
      split; [cbn [user_data log]; congruence|].
      split; [rewrite live_log; now apply live_none|].
      split.
      { apply Hcount; autorewrite with trace_db;
          [rewrite Hc3; cbn; lia | now rewrite Hop3]. }
      split.
      { apply Hord.
        - apply (ordered_app detail_rank 3); auto.
        - rewrite ranks_ge_app.
          now rewrite (ranks_ge_weaken detail_rank 3 2 s3) by (auto; lia). }
      apply Hgoto. autorewrite with trace_db. now rewrite Hg3.
    + rewrite close_noop by (cbn; assumption).
      destruct (edit_callback_run MsgDetailsError
                  (log (EditText MsgNoDetails) ok4 w3)) as (r5 & ok5 & Heq5).
      rewrite Heq5.
      exists r5, (log (EditText MsgDetailsError) ok5
                    (log (EditText MsgNoDetails) ok4 w3)),
        (s1 ++ s3 ++ [(EditText MsgNoDetails, ok4);
                      (EditText MsgDetailsError, ok5)]).
      split; [reflexivity|].
      split; [cbn [trace log]; now rewrite Htr3, Htr1, <- !app_assoc|].
      split; [cbn [user_data log]; congruence|].
      split; [rewrite !live_log; now apply live_none|].
      split.
      { apply Hcount; autorewrite with trace_db;
          [rewrite Hc3; cbn; lia | now rewrite Hop3]. }
      split.
      { apply Hord.
        - apply (ordered_app detail_rank 3); auto.
        - rewrite ranks_ge_app.
          now rewrite (ranks_ge_weaken detail_rank 3 2 s3) by (auto; lia). }
      apply Hgoto. autorewrite with trace_db. now rewrite Hg3.
Qed.

(** What both handlers guarantee from a state without a browser. *)
Lemma drama_command_run (uid : Z) (text : string) (w : world) :
  exists r w' seg,
    drama_command E uid text w = (r, w')
    /\ trace w' = trace w ++ seg
    /\ (live w = false ->
        live w' = false
        /\ count_closes seg = (if opened seg then 1 else 0))
    /\ ordered search_rank seg = true
    /\ (gotos seg = [] \/ exists part, gotos seg = [search_url (PyStr.strip part)]).
Proof.
  unfold drama_command.
  destruct (PyStr.split_maxsplit1 text) as [|cmd [|part rest]].
  1, 2: destruct (ext_run (ReplyText MsgUsage) w) as (r & ok & Heq);
    exists r, (log (ReplyText MsgUsage) ok w), [(ReplyText MsgUsage, ok)];
    (split; [exact Heq|]); (split; [reflexivity|]);
    (split; [intros Hl; now rewrite live_log|]); split; auto.
  unfold bind, ext. set (q := PyStr.strip part).
  destruct (raises E (clock w)).
  - exists (Raise (ExternalError (clock w))),
      (log (ReplyText (MsgSearching q)) false w),
      [(ReplyText (MsgSearching q), false)].
    split; [reflexivity|]. split; [reflexivity|].
    split; [intros Hl; now rewrite live_log|]. split; auto.
  - destruct (search_interaction_run uid q (log (ReplyText (MsgSearching q)) true w))
      as (r & w' & seg & rs & Heq & Htr & _ & Hl & _ & _ & Hc & Ho & Hg & _).
    rewrite Heq.
    exists r, w', ((ReplyText (MsgSearching q), true) :: seg).
    split; [reflexivity|].
    split; [rewrite Htr; cbn [trace log]; now rewrite <- app_assoc|].
    split.
    { intros Hlw. split; [exact Hl|].
      rewrite live_log, Hlw in Hc. exact Hc. }
    split; [exact Ho|].
    destruct Hg as [Hg|Hg]; [now left|right; now exists part].
Qed.

Lemma drama_callback_run (uid : Z) (data : string) (w : world) :
  exists r w' seg,
    drama_callback E uid data w = (r, w')
    /\ trace w' = trace w ++ seg
    /\ user_data w' = user_data w
    /\ (live w = false ->
        live w' = false
        /\ count_closes seg = (if opened seg then 1 else 0))
    /\ ordered detail_rank seg = true.
Proof.
  unfold drama_callback, bind, get_world.
  destruct (ext_run Answer w) as (r0 & ok0 & Heq0). rewrite Heq0.
  destruct r0 as [[]|e].
  2: { exists (Raise e), (log Answer ok0 w), [(Answer, ok0)].
       split; [reflexivity|]. split; [reflexivity|]. split; [reflexivity|].
       split; [intros Hl; now rewrite live_log|reflexivity]. }
  set (w0 := log Answer ok0 w).
  assert (Hshort : forall m,
             message_stage m = None ->
             exists r w' seg,
               edit_callback_message E m w0 = (r, w')
               /\ trace w' = trace w ++ seg
               /\ user_data w' = user_data w
               /\ (live w = false ->
                   live w' = false
                   /\ count_closes seg = (if opened seg then 1 else 0))
               /\ ordered detail_rank seg = true).
  { intros m Hm. destruct (edit_callback_run m w0) as (r & ok & Heq).
    exists r, (log (EditText m) ok w0), [(Answer, ok0); (EditText m, ok)].
    split; [exact Heq|].
    split; [cbn [trace log w0]; now rewrite <- app_assoc|].
    split; [reflexivity|].
    split; [intros Hl; now rewrite !live_log|].
    cbn. now rewrite Hm. }
  change (user_data w0) with (user_data w).
  destruct (user_data w !! uid) as [entry|]; [|now apply Hshort].
  destruct (lookup_url _ _) as [url|]; [|now apply Hshort].
  destruct (PyStr.is_empty url); [now apply Hshort|].
  destruct (edit_callback_run MsgLoading w0) as (r1 & ok1 & Heq1).
  rewrite Heq1. destruct r1 as [[]|e].
  2: { exists (Raise e), (log (EditText MsgLoading) ok1 w0),
         [(Answer, ok0); (EditText MsgLoading, ok1)].
       split; [reflexivity|].
       split; [cbn [trace log w0]; now rewrite <- app_assoc|].
       split; [reflexivity|].
       split; [intros Hl; now rewrite !live_log|reflexivity]. }
  destruct (details_interaction_run url (log (EditText MsgLoading) ok1 w0))
    as (r & w' & seg & Heq & Htr & Hu & Hl & Hc & Ho & Hg).
  rewrite Heq.
  exists r, w', ((Answer, ok0) :: (EditText MsgLoading, ok1) :: seg).
  split; [reflexivity|].
  split; [rewrite Htr; cbn [trace log w0]; now rewrite <- !app_assoc|].
  split; [exact Hu|].
  split; [|exact Ho].
  intros Hlw. split; [exact Hl|].
  unfold w0 in Hc. rewrite !live_log, Hlw in Hc. exact Hc.
Qed.
End Handlers.

(* ===================================================================== *)
(** ** The scraper's [close] *)
(* ===================================================================== *)

(** C7. [close] never raises and always leaves the scraper in the "no
    browser" state (both handles cleared), whatever the browser or the
    driver answer to being closed; on a scraper that is already in that
    state it makes no call and changes nothing, so closing twice is
    closing once. *)
Theorem close_is_total_and_idempotent (E : env) (w : world) :
  fst (close E w) = Ok tt
  /\ browser (snd (close E w)) = None
  /\ playwright (snd (close E w)) = None
  /\ close E (snd (close E w)) = (Ok tt, snd (close E w))
  /\ (forall u d tr c,
        close E (mkWorld None None u d tr c)
        = (Ok tt, mkWorld None None u d tr c)).
Proof.
  destruct (close_run E w) as (w' & seg & Heq & _ & Hb & Hp & _).
  rewrite Heq. cbn [fst snd].
  split; [reflexivity|]. split; [exact Hb|]. split; [exact Hp|].
  split; [now apply close_noop|].
  intros u d tr c. now apply close_noop.
Qed.

(* ===================================================================== *)
(** ** The search URL *)
(* ===================================================================== *)

(** When no call fails, [search_dramas] navigates, once, to the search
    URL of its query. *)
Lemma search_dramas_navigates (E : env) (q : string) (w : world) :
  (forall n, raises E n = false) ->
  gotos (segment w (snd (search_dramas E q w))) = [search_url q].
Proof.
  intros Hcalm. destruct w as [b p u d tr c].
  unfold search_dramas, _get_page_content, _ensure_browser, segment.
  destruct b; unfold_run; repeat (rewrite Hcalm; unfold_run);
    destruct (web E (search_url q)); unfold_run; cbn [snd];
    rewrite <- ?app_assoc, drop_app_length; reflexivity.
Qed.

(** C10. The URL of a search is the base URL, the literal [/search?q=]
    and the query as it is, with no encoding. [search_dramas] navigates
    nowhere else and at most once, and when no call fails it navigates
    there, exactly once, for every query and from every state (so also
    for a query with blanks, [&] and [#]). *)
Theorem search_fetches_verbatim_url (E : env) (q : string) (w : world) :
  search_url q = "https://mydramalist.com" +:+ "/search?q=" +:+ q
  /\ (gotos (segment w (snd (search_dramas E q w))) = []
      \/ gotos (segment w (snd (search_dramas E q w))) = [search_url q])
  /\ ((forall n, raises E n = false) ->
      gotos (segment w (snd (search_dramas E q w))) = [search_url q])
  /\ gotos (segment fresh (snd (search_dramas (calm page_empty) "a b&c#d" fresh)))
     = ["https://mydramalist.com/search?q=a b&c#d"].
Proof.
  split; [reflexivity|]. split; [|split; [|reflexivity]].
  - destruct (search_dramas_run E q w)
      as (rs & w' & seg & Heq & Htr & _ & _ & _ & _ & Hg & _).
    rewrite Heq. cbn [snd]. now rewrite (segment_app _ _ _ Htr).
  - apply search_dramas_navigates.
Qed.

Lemma search_fetches_verbatim_url_witness :
  gotos (segment with_stored
           (snd (search_dramas (calm page_three) "Crash Landing & You #1"
                   with_stored)))
  = ["https://mydramalist.com/search?q=Crash Landing & You #1"].
Proof.
  exact (proj1 (proj2 (proj2
           (search_fetches_verbatim_url (calm page_three)
              "Crash Landing & You #1" with_stored)))
           (fun _ => eq_refl)).
Defined.

(* ===================================================================== *)
(** ** Closing the session *)
(* ===================================================================== *)

Section Interactions.

Variable E : env.

(** With a query, and the notice accepted, the handler is the search
    interaction run after the notice. *)
Lemma drama_command_query (uid : Z) (text cmd part : string) (w : world) :
  PyStr.split_maxsplit1 text = [cmd; part] ->
  raises E (clock w) = false ->
  drama_command E uid text w
  = search_interaction E uid (PyStr.strip part)
      (log (ReplyText (MsgSearching (PyStr.strip part))) true w).
Proof.
  intros Hs Hr. unfold drama_command, bind, ext. now rewrite Hs, Hr.
Qed.

Lemma called_cons c ev (tr : list event) :
  called c (ev :: tr) <-> (exists ok, ev = (c, ok)) \/ called c tr.
Proof.
  unfold called. split.
  - intros [ok [H|H]]; eauto.
  - intros [[ok ->]|[ok H]]; exists ok; [now left|now right].
Qed.

End Interactions.

(** C1. Started without a browser, each handler ends without one, and
    the browser is told to close exactly once in every run that launched
    one (and never in a run that launched none), whichever calls fail.
    When the fetch of a search hands back no page, the page parser is not
    called and the "no results" message is sent. *)
Theorem sessions_closed_exactly_once
  (E : env) (uid : Z) (input : string) (w : world) :
  live w = false ->
  closed_once w (snd (drama_command E uid input w))
  /\ closed_once w (snd (drama_callback E uid input w))
  /\ (forall cmd part,
        PyStr.split_maxsplit1 input = [cmd; part] ->
        raises E (clock w) = false ->
        (forall soup,
            fst (_get_page_content E (search_url (PyStr.strip part))
                   (log (ReplyText (MsgSearching (PyStr.strip part))) true w))
            <> Ok (Some soup)) ->
        ~ called BeautifulSoup (segment w (snd (drama_command E uid input w)))
        /\ called (EditText (MsgNoResults (PyStr.strip part)))
             (segment w (snd (drama_command E uid input w)))).
Proof.
  intros Hlive. unfold closed_once. split; [|split].
  - destruct (drama_command_run E uid input w)
      as (r & w' & seg & Heq & Htr & Hc & _).
    rewrite Heq. cbn [snd]. rewrite (segment_app _ _ _ Htr). now apply Hc.
  - destruct (drama_callback_run E uid input w)
      as (r & w' & seg & Heq & Htr & _ & Hc & _).
    rewrite Heq. cbn [snd]. rewrite (segment_app _ _ _ Htr). now apply Hc.
  - intros cmd part Hsplit Hreply Hnone.
    rewrite (drama_command_query E uid input cmd part w Hsplit Hreply).
    set (q := PyStr.strip part) in *.
    set (w1 := log (ReplyText (MsgSearching q)) true w) in *.
    destruct (search_interaction_run E uid q w1)
      as (r & w' & seg & rs & Heq & Htr & _ & _ & _ & _ & _ & _ & _ & Hp).
    rewrite Heq. cbn [snd].
    assert (Hseg : segment w w' = (ReplyText (MsgSearching q), true) :: seg).
    { apply segment_app. rewrite Htr. unfold w1. cbn [trace log].
      now rewrite <- app_assoc. }
    rewrite Hseg.
    destruct (fst (_get_page_content E (search_url q) w1)) as [[soup|]|e];
      [now destruct (Hnone soup)| |];
      destruct Hp as [Hnp Hsent]; (split;
        [intros H; apply called_cons in H as [[ok H]|H];
           [discriminate H | tauto]
        | apply called_cons; now right]).
Qed.

Lemma sessions_closed_exactly_once_witness :
  live fresh = false
  /\ closed_once fresh
       (snd (drama_command (failing_at 5 page_three) 7 "/drama Squid Game" fresh))
  /\ ~ called BeautifulSoup
         (segment fresh
            (snd (drama_command (failing_at 5 page_three) 7
                    "/drama Squid Game" fresh))).
Proof.
  split; [reflexivity|].
  destruct (sessions_closed_exactly_once
              (failing_at 5 page_three) 7 "/drama Squid Game" fresh eq_refl)
    as (Hcmd & _ & Hscenario).
  split; [exact Hcmd|].
  apply (Hscenario "/drama" "Squid Game" eq_refl eq_refl).
  intros soup. vm_compute. discriminate.
Defined.

(* ===================================================================== *)
(** ** The order of the steps *)
(* ===================================================================== *)

(** C5, as the code has it. In a search the page is fetched, then
    parsed, then the browser is closed, and only then is the outcome
    (results, "no results" or the error message) sent to the user. In a
    detail view the page is fetched, then parsed, then the details are
    sent, then the browser is closed; the failure messages ("could not
    fetch", generic error) are sent after the close. *)
Theorem interaction_order (E : env) (uid : Z) (input : string) (w : world) :
  let s := segment w (snd (drama_command E uid input w)) in
  let d := segment w (snd (drama_callback E uid input w)) in
  (precedes Fetch Parse s /\ precedes Parse Close s
   /\ precedes Close Render s /\ precedes Close Report s)
  /\ (precedes Fetch Parse d /\ precedes Parse Render d
      /\ precedes Render Close d /\ precedes Close Report d)
  /\ (forall a b, search_rank a < search_rank b -> precedes a b s)
  /\ (forall a b, detail_rank a < detail_rank b -> precedes a b d).
Proof.
  intros s d.
  assert (Hs : forall a b, search_rank a < search_rank b -> precedes a b s).
  { intros a b Hab. subst s.
    destruct (drama_command_run E uid input w)
      as (r & w' & seg & Heq & Htr & _ & Ho & _).
    rewrite Heq. cbn [snd]. rewrite (segment_app _ _ _ Htr).
    now apply (ordered_precedes search_rank). }
  assert (Hd : forall a b, detail_rank a < detail_rank b -> precedes a b d).
  { intros a b Hab. subst d.
    destruct (drama_callback_run E uid input w)
      as (r & w' & seg & Heq & Htr & _ & _ & Ho).
    rewrite Heq. cbn [snd]. rewrite (segment_app _ _ _ Htr).
    now apply (ordered_precedes detail_rank). }
  split; [|split; [|split; assumption]].
  - repeat split; apply Hs; simpl; lia.
  - repeat split; apply Hd; simpl; lia.
Qed.

(** C5 as stated fails for a search: the browser is closed (events 11
    and 12 of the run) before the results are sent (event 13). *)
Lemma search_closes_before_rendering :
  let s := segment fresh
             (snd (drama_command (calm page_three) 7 "/drama Squid Game" fresh)) in
  fst <$> s !! 11 = Some BrowserClose
  /\ stage_of <$> (fst <$> s !! 13) = Some (Some Render)
  /\ ~ precedes Render Close s.
Proof.
  split; [reflexivity|]. split; [reflexivity|].
  intros H.
  pose proof (H 13 11 _ _ eq_refl eq_refl eq_refl eq_refl) as Hlt. lia.
Qed.

(* ===================================================================== *)
(** ** The stored result set *)
(* ===================================================================== *)

(** C9, as the code has it. Once the search notice is out, a search that
    finds something replaces the user's stored entry by its results and
    its query (the entries of the other users stay); a search that finds
    nothing leaves the dictionary as it was, so the previous entry of
    the user survives. *)
Theorem search_overwrites_unless_empty
  (E : env) (uid : Z) (text cmd part : string) (w : world) :
  PyStr.split_maxsplit1 text = [cmd; part] ->
  raises E (clock w) = false ->
  exists rs,
    fst (search_dramas E (PyStr.strip part)
           (log (ReplyText (MsgSearching (PyStr.strip part))) true w)) = Ok rs
    /\ user_data (snd (drama_command E uid text w))
       = match rs with
         | [] => user_data w
         | _ => <[uid := mkUserEntry rs (PyStr.strip part)]> (user_data w)
         end.
Proof.
  intros Hsplit Hreply.
  rewrite (drama_command_query E uid text cmd part w Hsplit Hreply).
  destruct (search_interaction_run E uid (PyStr.strip part)
              (log (ReplyText (MsgSearching (PyStr.strip part))) true w))
    as (r & w' & seg & rs & Heq & _ & Hrs & _ & _ & Hu & _).
  rewrite Heq. cbn [snd]. exists rs. split; [exact Hrs|exact Hu].
Qed.

Lemma search_overwrites_unless_empty_witness :
  exists rs,
    map sr_id rs = ["12345"; "67890"; "11111"]
    /\ user_data (snd (drama_command (calm page_three) 7
                         "/drama Squid Game" with_stored)) !! 7%Z
       = Some (mkUserEntry rs "Squid Game").
Proof.
  destruct (search_overwrites_unless_empty (calm page_three) 7
              "/drama Squid Game" "/drama" "Squid Game" with_stored
              eq_refl eq_refl) as (rs & Hrs & Hu).
  exists rs. split.
  - vm_compute in Hrs. injection Hrs as <-. reflexivity.
  - rewrite Hu. vm_compute in Hrs. injection Hrs as <-.
    apply lookup_insert_eq.
Defined.

(** C9 as stated fails: after a search without results the stored entry
    is still the one of the earlier search. *)
Lemma empty_search_keeps_old_results :
  fst (drama_command (calm page_empty) 7 "/drama Nothing" with_stored) = Ok tt
  /\ user_data (snd (drama_command (calm page_empty) 7 "/drama Nothing"
                       with_stored)) !! 7%Z
     = Some stored_entry
  /\ Some stored_entry <> Some (mkUserEntry [] "Nothing").
Proof.
  split; [reflexivity|]. split; [reflexivity|]. discriminate.
Qed.

(* ===================================================================== *)
(** ** Defects *)
(* ===================================================================== *)

(** C4. A rating container without its inner element makes the whole
    extraction raise, and [get_drama_details] returns [None], although
    the title of the same page is there to be read. *)
Theorem bare_rating_loses_record :
  extract_title detail_page_bare_rating = "Kingdom"
  /\ extract_rating detail_page_bare_rating = inl AttributeError
  /\ extract_details detail_page_bare_rating "https://mydramalist.com/1-kingdom"
     = inl AttributeError
  /\ fst (get_drama_details (calm detail_page_bare_rating)
            "https://mydramalist.com/1-kingdom" fresh)
     = Ok None.
Proof. repeat split; reflexivity. Qed.

(** C8. A site identifier that contains [mdl_] does not survive the
    selector: the search stores the id [amdl_b] and puts [mdl_amdl_b] on
    the button, the callback strips it down to [ab] and reports that the
    drama is not found. *)
Theorem tagged_id_is_not_found :
  let w1 := snd (drama_command (calm page_tagged_id) 7 "/drama Tagged" fresh) in
  map sr_id <$> (entry_results <$> user_data w1 !! 7%Z) = Some ["amdl_b"]
  /\ last (trace w1)
     = Some (EditText (MsgResults "Tagged" 1
                         [CallbackButton "Tagged (Korean Drama - 2021)"
                            "mdl_amdl_b"]), true)
  /\ PyStr.replace_empty "mdl_" "mdl_amdl_b" = "ab"
  /\ segment w1 (snd (drama_callback (calm page_tagged_id) 7 "mdl_amdl_b" w1))
     = [(Answer, true); (EditText MsgDramaNotFound, true)].
Proof. repeat split; reflexivity. Qed.

Section PhotoRejected.

Variable E : env.

(** [close] sends nothing to the user. *)
Lemma close_delivers_nothing (w : world) :
  List.filter delivered (segment w (snd (close E w))) = [].
Proof.
  destruct w as [b p u d tr c]. unfold close, segment.
  destruct b, p; unfold_run; repeat (next_call E; unfold_run);
    cbn [snd]; rewrite <- ?app_assoc, ?drop_app_length;
    try reflexivity; now rewrite drop_all.
Qed.

(** With a poster, once the message is deleted and the photo rejected,
    the fallback edits the deleted message and fails too. *)
Lemma send_details_photo_rejected (details : Details) (w : world) :
  PyStr.is_empty (d_image_url details) = false ->
  raises E (clock w) = false ->
  raises E (S (clock w)) = true ->
  send_details E details w
  = (Raise (ExternalError (S (S (clock w)))),
     log (EditText (MsgDetails (caption_of details) (link_keyboard details)))
       false
       (log (SendPhoto (d_image_url details) (caption_of details)
               (link_keyboard details)) false
          (set_message_deleted true (log DeleteMessage true w)))).
Proof.
  intros Himg Hdel Hphoto. destruct w as [b p u d tr c].
  cbn [clock] in Hdel, Hphoto. unfold send_details. rewrite Himg.
  cbn [negb]. unfold_run. rewrite Hdel. unfold_run. rewrite Hphoto.
  reflexivity.
Qed.

(** In that case the handler ends with an exception and nothing has
    reached the user after the details were extracted. *)
Lemma details_interaction_photo_rejected
  (url : string) (details : Details) (w w1 : world) :
  get_drama_details E url w = (Ok (Some details), w1) ->
  PyStr.is_empty (d_image_url details) = false ->
  raises E (clock w1) = false ->
  raises E (S (clock w1)) = true ->
  exists e w',
    details_interaction E url w = (Raise e, w')
    /\ message_deleted w' = true
    /\ List.filter delivered (segment w1 w') = [].
Proof.
  intros Hget Himg Hdel Hphoto.
  unfold details_interaction, try_except, bind. rewrite Hget.
  rewrite (send_details_photo_rejected details w1 Himg Hdel Hphoto).
  set (w2 := log _ false (log _ false (set_message_deleted true _))).
  pose proof (close_delivers_nothing w2) as Hnone.
  destruct (close_run E w2)
    as (w3 & s3 & Heq3 & Htr3 & _ & _ & _ & Hd3 & _).
  rewrite Heq3 in Hnone |- *. cbn [snd] in Hnone.
  rewrite (segment_app _ _ _ Htr3) in Hnone.
  unfold edit_callback_message. rewrite Hd3. cbn [message_deleted w2 log].
  cbn [set_message_deleted message_deleted].
  do 2 eexists. split; [reflexivity|].
  split; [cbn [message_deleted log]; now rewrite Hd3|].
  erewrite segment_app.
  2: { cbn [trace log]. rewrite Htr3. unfold w2. cbn [trace log set_message_deleted].
       rewrite <- !app_assoc. reflexivity. }
  cbn. rewrite List.filter_app, Hnone. reflexivity.
Qed.

End PhotoRejected.

(** C6. With a poster on the page and the photo rejected (call 13 of the
    run), the message was deleted just before (call 12), so the text
    fallback edits a deleted message and fails, the error report after
    the close fails in the same way, the handler ends with an
    exception, and the user receives nothing after the loading notice. *)
Theorem rejected_photo_is_not_replaced_by_text :
  let run := drama_callback (failing_at 13 detail_page_full) 7 "mdl_67890"
               with_stored in
  exists details,
    extract_details detail_page_full "https://mydramalist.com/67890-squid-game-2"
    = inr details
    /\ fst run = Raise (ExternalError 17)
    /\ drop 12 (trace (snd run))
       = [(DeleteMessage, true);
          (SendPhoto (d_image_url details) (caption_of details)
             (link_keyboard details), false);
          (EditText (MsgDetails (caption_of details) (link_keyboard details)),
           false);
          (BrowserClose, true);
          (PlaywrightStop, true);
          (EditText MsgDetailsError, false)]
    /\ List.filter delivered (trace (snd run)) = [(EditText MsgLoading, true)].
Proof.
  eexists. split; [reflexivity|]. repeat split; reflexivity.
Qed.

(* ===================================================================== *)
(** ** Further properties of the extraction *)
(* ===================================================================== *)

Section MoreStrings.

Lemma prefix_append (s t : string) : String.prefix s (s +:+ t) = true.
Proof.
  induction s as [|c s IH]; [apply prefix_empty|].
  rewrite append_cons. simpl.
  destruct (Ascii.ascii_dec c c); [exact IH|congruence].
Qed.

Lemma proper_take (n : nat) (l : list string) :
  proper l = true -> proper (take n l) = true.
Proof.
  intros H. rewrite <- (take_drop n l) in H. now apply proper_app in H.
Qed.

Lemma chars_full (s : string) :
  starts_char s = true -> forallb is_full_char (PyStr.chars s) = true.
Proof.
  destruct s as [|c s]; [reflexivity|]. intros Hc.
  destruct (chars_cons c s) as (cont & l & -> & Hcont & Hl).
  cbn [forallb]. rewrite Hl, andb_true_r. unfold is_full_char.
  cbn [is_chunk]. now rewrite Hcont.
Qed.

Lemma proper_app_full (l1 l2 : list string) :
  proper l1 = true -> forallb is_full_char l2 = true ->
  proper (l1 ++ l2) = true.
Proof.
  destruct l1 as [|ch l1]; [intros _; apply full_proper|].
  simpl. intros H1 H2. apply andb_prop in H1 as [-> H1].
  now rewrite forallb_app, H1, H2.
Qed.

(** The characters of two strings put together, when the second does
    not begin in the middle of a character. *)
Lemma chars_append (s t : string) :
  starts_char t = true ->
  PyStr.chars (s +:+ t) = PyStr.chars s ++ PyStr.chars t.
Proof.
  intros Ht.
  rewrite <- (unchars_chars s), <- (unchars_chars t) at 1.
  rewrite <- unchars_app. apply chars_unchars.
  apply proper_app_full; [apply chars_proper|now apply chars_full].
Qed.

Lemma len_slice_to (n : nat) (s : string) :
  PyStr.len (PyStr.slice_to n s) = Nat.min n (PyStr.len s).
Proof.
  unfold PyStr.len, PyStr.slice_to.
  rewrite chars_unchars by apply proper_take, chars_proper.
  apply length_take.
Qed.

Lemma prefix_slice_to (n : nat) (s : string) :
  String.prefix (PyStr.slice_to n s) s = true.
Proof.
  unfold PyStr.slice_to.
  rewrite <- (unchars_chars s) at 2.
  rewrite <- (take_drop n (PyStr.chars s)) at 2.
  rewrite unchars_app. apply prefix_append.
Qed.

(** Stripping twice is stripping once. *)
Lemma strip_idempotent (s : string) :
  PyStr.strip (PyStr.strip s) = PyStr.strip s.
Proof.
  unfold PyStr.strip.
  rewrite chars_unchars by apply stripped_proper, chars_proper.
  f_equal.
  destruct (lstrip_chars_head (PyStr.chars s)) as [->|(ch & r & -> & Hch)];
    [reflexivity|].
  rewrite rstrip_chars_keeps_head by exact Hch.
  cbn [PyStr.lstrip_chars]. rewrite Hch.
  rewrite <- (rstrip_chars_keeps_head _ _ Hch).
  apply rstrip_chars_idempotent.
Qed.

End MoreStrings.

(** Characters outside ASCII count as one character each, and the
    whitespace that is stripped or split on need not be ASCII. *)
Example strip_removes_unicode_whitespace :
  PyStr.strip nbsp = EmptyString
  /\ PyStr.strip (nbsp +:+ " Title " +:+ ideographic_space) = "Title".
Proof. split; reflexivity. Qed.

Example split_on_unicode_whitespace :
  PyStr.split_maxsplit1 ("/drama" +:+ ideographic_space +:+ "x")
  = ["/drama"; "x"]
  /\ PyStr.split_maxsplit1 ("/drama " +:+ ideographic_space) = ["/drama"].
Proof. split; reflexivity. Qed.

Example len_counts_characters :
  let text := String.concat EmptyString (repeat "é" 300) in
  String.length text = 600 /\ PyStr.len text = 300
  /\ clip_synopsis text = text.
Proof. repeat split; reflexivity. Qed.

Example blank_title_is_not_well_formed :
  well_formed_page (sample_page [sample_box "mdl-1" nbsp]) = false.
Proof. reflexivity. Qed.

(** X1. The synopsis of a record is the text itself when it has at most
    500 characters, and its first 500 characters followed by three dots
    otherwise: counted in characters, its length is min(len, 500), plus
    3 exactly when the text was longer, and it starts with the first
    min(len, 500) characters of the text. *)
Theorem synopsis_is_clipped (synopsis : string) :
  PyStr.len (clip_synopsis synopsis)
  = Nat.min (PyStr.len synopsis) 500
    + (if (500 <? PyStr.len synopsis)%nat then 3 else 0)
  /\ String.prefix (PyStr.slice_to 500 synopsis) (clip_synopsis synopsis) = true
  /\ String.prefix (PyStr.slice_to 500 synopsis) synopsis = true
  /\ PyStr.len (PyStr.slice_to 500 synopsis)
     = Nat.min (PyStr.len synopsis) 500.
Proof.
  unfold clip_synopsis.
  destruct (500 <? PyStr.len synopsis)%nat eqn:Hlong.
  - apply Nat.ltb_lt in Hlong.
    assert (Hlen : PyStr.len (PyStr.slice_to 500 synopsis +:+ "...")
                   = PyStr.len (PyStr.slice_to 500 synopsis) + 3).
    { unfold PyStr.len at 1. rewrite chars_append by reflexivity.
      now rewrite length_app. }
    rewrite Hlen, len_slice_to.
    split; [lia|]. split; [apply prefix_append|].
    split; [apply prefix_slice_to|]. lia.
  - apply Nat.ltb_ge in Hlong. rewrite len_slice_to.
    split; [lia|]. split; [apply prefix_slice_to|].
    split; [apply prefix_slice_to|]. lia.
Qed.

(** X2. The image address of a record is the address of the poster made
    absolute: an empty address (or no poster) stays empty, an address
    that starts with [http] is kept, one that starts with [//] gets
    [https:] in front, and any other gets the base URL in front. In
    every case the result is empty or starts with [http]. *)
Theorem image_url_is_absolute_or_empty (soup : node) :
  let src := poster_src soup in
  extract_image_url soup
  = (if PyStr.is_empty src then EmptyString
     else if PyStr.startswith "http" src then src
     else if PyStr.startswith "//" src then "https:" +:+ src
     else "https://mydramalist.com" +:+ src)
  /\ (extract_image_url soup = EmptyString
      \/ PyStr.startswith "http" (extract_image_url soup) = true).
Proof.
  unfold extract_image_url, poster_src.
  destruct (Soup.find is_poster_img soup) as [img_tag|];
    [|split; [reflexivity|now left]].
  destruct (Soup.get_or_empty "src" img_tag) as [|c src] eqn:Hsrc;
    [split; [reflexivity|now left]|].
  cbn [PyStr.is_empty negb andb].
  destruct (PyStr.startswith "http" (String c src)) eqn:Hhttp; cbn [negb].
  - split; [reflexivity|now right].
  - destruct (PyStr.startswith "//" (String c src));
      (split; [reflexivity|right; reflexivity]).
Qed.

(** X3. The extraction of a detail page fails in one situation only: the
    rating container is on the page and has no inner box element. On any
    other page it returns a record, whose link is the URL that was
    asked for. *)
Theorem details_lost_only_by_bare_rating (soup : node) (drama_url : string) :
  (extract_details soup drama_url = inl AttributeError
   <-> exists rating_div,
         Soup.find is_rating_div soup = Some rating_div
         /\ Soup.find is_box_div rating_div = None)
  /\ (extract_details soup drama_url = inl AttributeError
      \/ exists d, extract_details soup drama_url = inr d
                   /\ d_url d = drama_url).
Proof.
  pose proof (extract_details_rating soup drama_url) as H.
  unfold extract_rating in *.
  destruct (Soup.find is_rating_div soup) as [rating_div|].
  - destruct (Soup.find is_box_div rating_div) as [box|] eqn:Hbox.
    + destruct H as (d & Hd & _ & _ & _ & Hurl). split.
      * split; [rewrite Hd; discriminate|].
        intros (rd & [= <-] & Hnone). congruence.
      * right. now exists d.
    + split; [|now left]. split; [|intros _; exact H].
      intros _. now exists rating_div.
  - destruct H as (d & Hd & _ & _ & _ & Hurl). split.
    + split; [rewrite Hd; discriminate|]. intros (rd & Hrd & _). discriminate.
    + right. now exists d.
Qed.

(** X4. On a page with none of the elements the extraction looks for,
    the record holds the defaults: title [Unknown], no image, [N/A] for
    the rating, the five info fields and the genres, and an empty
    synopsis. *)
Theorem blank_page_gives_defaults (soup : node) (drama_url : string) :
  detail_page_blank soup = true ->
  extract_details soup drama_url
  = inr {| d_title := "Unknown"; d_image_url := EmptyString;
           d_rating := "N/A"; d_country := "N/A"; d_type := "N/A";
           d_episodes := "N/A"; d_aired := "N/A"; d_duration := "N/A";
           d_genres := "N/A"; d_synopsis := EmptyString;
           d_url := drama_url |}.
Proof.
  unfold detail_page_blank. intros H.
  destruct (Soup.find is_film_title soup) eqn:Ht; [discriminate|].
  destruct (Soup.find is_poster_img soup) eqn:Hi; [discriminate|].
  destruct (Soup.find is_rating_div soup) eqn:Hr; [discriminate|].
  destruct (Soup.find_all is_list_item soup) eqn:Hl; [|discriminate].
  destruct (Soup.find is_synopsis_div soup) eqn:Hs; [discriminate|].
  destruct (Soup.find is_genres_li soup) eqn:Hg; [discriminate|].
  unfold extract_details, extract_title, extract_image_url, extract_rating,
    extract_info, extract_synopsis, extract_genres.
  rewrite Ht, Hi, Hr, Hl, Hs, Hg. reflexivity.
Qed.

Lemma blank_page_gives_defaults_witness :
  detail_page_blank page_three = true
  /\ exists d, extract_details page_three "u" = inr d /\ d_title d = "Unknown".
Proof.
  split; [reflexivity|].
  eexists. split; [apply (blank_page_gives_defaults page_three "u" eq_refl)|].
  reflexivity.
Defined.

Section MoreSearch.

Lemma omap_forall {A B} (f : A -> option B) (P : B -> Prop) (l : list A) :
  (forall a b, f a = Some b -> P b) -> Forall P (omap f l).
Proof.
  intros H. induction l as [|a l IH]; csimpl; [constructor|].
  destruct (f a) as [b|] eqn:Hb; [|exact IH].
  constructor; [now apply (H a)|exact IH].
Qed.

Lemma box_result_url (box : node) (r : SearchResult) :
  box_result box = Some r -> exists url, sr_url r = BASE_URL +:+ url.
Proof.
  unfold box_result.
  destruct (Soup.find is_title_h6 box) as [title_tag|]; [|discriminate].
  destruct (Soup.find (Soup.has_name "a") title_tag) as [link_tag|];
    [|discriminate].
  intros [= <-]. simpl. eauto.
Qed.

End MoreSearch.

(** X5. Every result of a search carries an address that starts with the
    base URL of the site, whatever the page holds. *)
Theorem result_urls_start_with_base (soup : node) :
  Forall (fun r => PyStr.startswith BASE_URL (sr_url r) = true)
    (search_results soup).
Proof.
  rewrite search_results_scan. apply omap_forall.
  intros box r Hr. destruct (box_result_url box r Hr) as (url & ->).
  apply prefix_append.
Qed.

(** X6. The button of a result carries the first 64 characters of its
    label (the title, followed by the type and year in brackets when
    there is one): a label of at most 64 characters is kept whole, a
    longer one is cut to 64 characters. Its selector is [mdl_] followed
    by the id, which the filter of the callback handler accepts. *)
Theorem result_button_fits (drama : SearchResult) :
  exists label,
    result_button drama = CallbackButton label ("mdl_" +:+ sr_id drama)
    /\ PyStr.len label = Nat.min 64 (PyStr.len (full_label drama))
    /\ String.prefix label (full_label drama) = true
    /\ (PyStr.len (full_label drama) <= 64 -> label = full_label drama)
    /\ PyStr.startswith "mdl_" ("mdl_" +:+ sr_id drama) = true.
Proof.
  eexists. split; [reflexivity|]. fold (full_label drama).
  split; [apply len_slice_to|]. split; [apply prefix_slice_to|].
  split; [|simpl; apply prefix_empty].
  intros Hlen. unfold PyStr.slice_to, PyStr.len in *.
  rewrite take_ge by exact Hlen. apply unchars_chars.
Qed.

(** X7. The lookup of a selected id returns the address of the first
    stored result with that id, and nothing exactly when no stored result
    has it. *)
Theorem lookup_url_first_match (drama_id : string) (l : list SearchResult) :
  match lookup_url drama_id l with
  | Some url =>
      exists before drama after,
        l = before ++ drama :: after
        /\ sr_id drama = drama_id /\ sr_url drama = url
        /\ Forall (fun r => sr_id r <> drama_id) before
  | None => Forall (fun r => sr_id r <> drama_id) l
  end.
Proof.
  induction l as [|r l IH]; simpl; [constructor|].
  destruct (String.eqb_spec (sr_id r) drama_id) as [Heq|Hne].
  - exists [], r, l. repeat split; auto.
  - destruct (lookup_url drama_id l) as [url|].
    + destruct IH as (before & drama & after & -> & Hid & Hurl & Hb).
      exists (r :: before), drama, after. repeat split; auto.
    + now constructor.
Qed.

Section MoreDetails.

Lemma info_step_entry (info : gmap string string) (item : node) :
  info_step info item
  = match item_entry item with
    | Some (key, value) => <[key := value]> info
    | None => info
    end.
Proof.
  unfold info_step, item_entry. now destruct (Soup.find is_inline_b item).
Qed.

Lemma fold_info_step_other (key : string) (l : list node)
  (info : gmap string string) :
  Forall (fun item => forall v, item_entry item <> Some (key, v)) l ->
  fold_left info_step l info !! key = info !! key.
Proof.
  intros H. revert info. induction H as [|item l Hitem _ IH]; intros info;
    simpl; [reflexivity|].
  rewrite IH, info_step_entry.
  destruct (item_entry item) as [[k v]|]; [|reflexivity].
  apply lookup_insert_ne. intros ->. now apply (Hitem v).
Qed.

Lemma node_nested_ind (P : node -> Prop) :
  (forall s, P (NavigableString s)) ->
  (forall nm at_ cs, Forall P cs -> P (Tag nm at_ cs)) ->
  forall n, P n.
Proof.
  intros Hs Ht. fix IH 1. intros [s|nm at_ cs]; [apply Hs|].
  apply Ht. induction cs as [|c cs IHcs]; constructor; [apply IH|exact IHcs].
Qed.

Lemma has_name_prune (nm : string) (p : node -> bool) (n : node) :
  Soup.has_name nm (Soup.prune p n) = Soup.has_name nm n.
Proof. now destruct n. Qed.

End MoreDetails.

(** X8. When several info lines of a detail page carry the same label,
    the value of the last one is the one kept under that label. *)
Theorem later_info_line_wins
  (soup : node) (before after : list node) (item : node) (key value : string) :
  Soup.find_all is_list_item soup = before ++ item :: after ->
  item_entry item = Some (key, value) ->
  Forall (fun it => forall v, item_entry it <> Some (key, v)) after ->
  extract_info soup !! key = Some value.
Proof.
  intros Hitems Hitem Hafter. unfold extract_info.
  rewrite Hitems, fold_left_app. simpl.
  rewrite fold_info_step_other by exact Hafter.
  rewrite info_step_entry, Hitem. apply lookup_insert_eq.
Qed.

Lemma later_info_line_wins_witness :
  extract_info detail_page_twice !! "Country" = Some "South Korea".
Proof.
  apply (later_info_line_wins detail_page_twice
           [info_line "Country:" " Japan "; info_line "Type:" " Movie "]
           [] (info_line "Country:" " South Korea ")
           "Country" "South Korea").
  - reflexivity.
  - reflexivity.
  - constructor.
Defined.

(** X9. Once the links have been taken out of the synopsis container, no
    link is left anywhere below it. *)
Theorem pruned_synopsis_has_no_link (synopsis_div : node) :
  Soup.find_all (Soup.has_name "a")
    (Soup.prune (Soup.has_name "a") synopsis_div) = [].
Proof.
  unfold Soup.find_all.
  induction synopsis_div as [s|nm at_ cs IH] using node_nested_ind;
    [reflexivity|].
  simpl. induction IH as [|c cs Hc _ IHcs]; simpl; [reflexivity|].
  destruct (Soup.has_name "a" c) eqn:Ha; simpl; [exact IHcs|].
  rewrite has_name_prune, Ha, List.filter_app, Hc. exact IHcs.
Qed.

(* ===================================================================== *)
(** ** Further properties of the scraper *)
(* ===================================================================== *)

Section MoreScraper.

Variable E : env.

Lemma ensure_browser_run (w : world) :
  match browser w with
  | Some _ => _ensure_browser E w = (Ok tt, w)
  | None =>
      exists r w' seg,
        _ensure_browser E w = (r, w')
        /\ trace w' = trace w ++ seg
        /\ user_data w' = user_data w
        /\ match r with
           | Ok _ =>
               live w' = true /\ playwright w' <> None
               /\ seg = [(PlaywrightStart, true); (FirefoxLaunch, true)]
           | Raise _ =>
               live w' = false
               /\ (seg = [(PlaywrightStart, false)]
                   /\ playwright w' = playwright w
                   \/ seg = [(PlaywrightStart, true); (FirefoxLaunch, false)]
                      /\ playwright w' <> None)
           end
  end.
Proof.
  destruct w as [b p u d tr c]. unfold _ensure_browser.
  destruct b; unfold_run; [reflexivity|].
  repeat (next_call E; unfold_run); do 3 eexists;
    (split; [reflexivity|]); (split; [trace_eq|]);
    (split; [reflexivity|]); cbn beta iota; repeat split;
    solve [discriminate | left; split; reflexivity
          | right; split; [reflexivity|discriminate]].
Qed.

Lemma get_page_content_release (url : string) (w : world) :
  exists r w' seg,
    _get_page_content E url w = (r, w')
    /\ trace w' = trace w ++ seg
    /\ attempted is_page_close seg = returned is_new_page seg
    /\ attempted is_context_close seg = returned is_page_close seg
    /\ count_calls is_new_context seg <= 1
    /\ count_calls is_new_page seg <= 1
    /\ count_calls is_page_close seg <= 1
    /\ count_calls is_context_close seg <= 1
    /\ returned is_context_close seg
       = match r with Ok _ => true | Raise _ => false end
    /\ match r with
       | Ok (Some soup) =>
           web E url = Some soup
           /\ count_calls is_navigation seg = 3
           /\ returned is_navigation seg = true
       | Ok None => True
       | Raise _ => True
       end.
Proof.
  destruct w as [b p u d tr c]. unfold _get_page_content, _ensure_browser.
  destruct b; unfold_run; repeat (next_call E; unfold_run);
    do 3 eexists;
    (split; [reflexivity|]); (split; [trace_eq|]);
    cbn beta iota; repeat split; cbn; try lia;
    match goal with
    | |- match ?x with _ => _ end => destruct x eqn:?; repeat split; cbn; auto
    | _ => idtac
    end.
Qed.

Lemma search_results_at_most_ten (soup : node) :
  List.length (search_results soup) <= 10.
Proof.
  rewrite search_results_scan.
  etransitivity; [apply length_omap_le|]. rewrite length_take. lia.
Qed.

End MoreScraper.

(** X10. [_ensure_browser] does nothing when the scraper holds a browser.
    Without one it starts the driver and launches the browser; when the
    launch fails, the driver that was started stays in the scraper (no
    browser is held), and when the start of the driver fails nothing is
    changed. *)
Theorem ensure_browser_is_lazy (E : env) (w : world) :
  match browser w with
  | Some _ => _ensure_browser E w = (Ok tt, w)
  | None =>
      let w' := snd (_ensure_browser E w) in
      match fst (_ensure_browser E w) with
      | Ok _ =>
          live w' = true /\ playwright w' <> None
          /\ segment w w' = [(PlaywrightStart, true); (FirefoxLaunch, true)]
      | Raise _ =>
          live w' = false
          /\ (segment w w' = [(PlaywrightStart, false)]
              /\ playwright w' = playwright w
              \/ segment w w' = [(PlaywrightStart, true); (FirefoxLaunch, false)]
                 /\ playwright w' <> None)
      end
  end.
Proof.
  pose proof (ensure_browser_run E w) as H.
  destruct (browser w); [exact H|].
  destruct H as (r & w' & seg & Heq & Htr & _ & H).
  rewrite Heq. cbn [fst snd]. rewrite (segment_app _ _ _ Htr). exact H.
Qed.

(** X11. In one fetch at most one context and one page are opened. The
    page is closed exactly when it was opened, and the context is closed
    exactly when closing the page returned, so the context stays open
    when opening or closing the page fails. The fetch returns (a page or
    nothing) exactly when closing the context returned: a failed
    navigation never makes it raise. A page is handed back only after
    the three navigation calls. *)
Theorem fetch_releases_page_and_context (E : env) (url : string) (w : world) :
  let r := fst (_get_page_content E url w) in
  let seg := segment w (snd (_get_page_content E url w)) in
  attempted is_page_close seg = returned is_new_page seg
  /\ attempted is_context_close seg = returned is_page_close seg
  /\ count_calls is_new_context seg <= 1
  /\ count_calls is_new_page seg <= 1
  /\ count_calls is_page_close seg <= 1
  /\ count_calls is_context_close seg <= 1
  /\ returned is_context_close seg
     = match r with Ok _ => true | Raise _ => false end
  /\ match r with
     | Ok (Some soup) =>
         web E url = Some soup
         /\ count_calls is_navigation seg = 3
         /\ returned is_navigation seg = true
     | Ok None => True
     | Raise _ => True
     end.
Proof.
  destruct (get_page_content_release E url w) as (r & w' & seg & Heq & Htr & H).
  rewrite Heq. cbn [fst snd]. rewrite (segment_app _ _ _ Htr). exact H.
Qed.

(** X12. [search_dramas] never raises and never closes the browser: a
    browser it launched is still held when it returns. It returns at
    most ten results, those of the page when the fetch handed one back
    and none otherwise, and it does not touch the stored result sets. *)
Theorem search_dramas_swallows_failures (E : env) (q : string) (w : world) :
  let w' := snd (search_dramas E q w) in
  exists rs,
    fst (search_dramas E q w) = Ok rs
    /\ List.length rs <= 10
    /\ rs = match fst (_get_page_content E (search_url q) w) with
            | Ok (Some soup) => search_results soup
            | _ => []
            end
    /\ count_closes (segment w w') = 0
    /\ live w' = live w || opened (segment w w')
    /\ user_data w' = user_data w.
Proof.
  destruct (search_dramas_run E q w)
    as (rs & w' & seg & Heq & Htr & Hu & _ & Hc & Hl & _ & _ & Hp).
  rewrite Heq. cbn [fst snd]. rewrite (segment_app _ _ _ Htr).
  exists rs. split; [reflexivity|].
  assert (Hrs : rs = match fst (_get_page_content E (search_url q) w) with
                     | Ok (Some soup) => search_results soup
                     | _ => []
                     end).
  { destruct (fst (_get_page_content E (search_url q) w)) as [[soup|]|e];
      now destruct Hp. }
  split; [|auto].
  rewrite Hrs.
  destruct (fst (_get_page_content E (search_url q) w)) as [[soup|]|e];
    simpl; try lia. apply search_results_at_most_ten.
Qed.

(** X13. [get_drama_details] never raises and never closes the browser.
    It returns the extracted record when the fetch handed a page back
    and the extraction did not fail, and nothing in every other case;
    the record links to the URL that was asked for. *)
Theorem get_drama_details_swallows_failures
  (E : env) (url : string) (w : world) :
  let w' := snd (get_drama_details E url w) in
  exists r,
    fst (get_drama_details E url w) = Ok r
    /\ r = match fst (_get_page_content E url w) with
           | Ok (Some soup) =>
               match extract_details soup url with
               | inl _ => None
               | inr d => Some d
               end
           | _ => None
           end
    /\ match r with Some d => d_url d = url | None => True end
    /\ count_closes (segment w w') = 0
    /\ live w' = live w || opened (segment w w')
    /\ user_data w' = user_data w.
Proof.
  destruct (get_drama_details_run E url w)
    as (r & w' & seg & Heq & Htr & Hu & _ & Hc & Hl & _ & _ & Hp).
  rewrite Heq. cbn [fst snd]. rewrite (segment_app _ _ _ Htr).
  exists r. split; [reflexivity|].
  assert (Hr : r = match fst (_get_page_content E url w) with
                   | Ok (Some soup) =>
                       match extract_details soup url with
                       | inl _ => None
                       | inr d => Some d
                       end
                   | _ => None
                   end).
  { destruct (fst (_get_page_content E url w)) as [[soup|]|e];
      now destruct Hp. }
  split; [exact Hr|]. split; [|auto].
  rewrite Hr.
  destruct (fst (_get_page_content E url w)) as [[soup|]|e]; try exact I.
  pose proof (extract_details_rating soup url) as Hd.
  destruct (extract_rating soup); [now rewrite Hd|].
  destruct Hd as (d & -> & _ & _ & _ & Hurl). exact Hurl.
Qed.

(* ===================================================================== *)
(** ** Further properties of the handlers *)
(* ===================================================================== *)

Section MoreSplit.

Lemma lstrip_all_space (l : list string) :
  all_space l = true -> PyStr.lstrip_chars l = [].
Proof.
  induction l as [|ch l IH]; simpl; [reflexivity|].
  intros H. apply andb_prop in H as [-> H]. now apply IH.
Qed.

Lemma lstrip_all_space_app (pre l : list string) :
  all_space pre = true ->
  PyStr.lstrip_chars (pre ++ l) = PyStr.lstrip_chars l.
Proof.
  induction pre as [|ch pre IH]; simpl; [reflexivity|].
  intros H. apply andb_prop in H as [-> H]. now apply IH.
Qed.

Lemma span_word_all_space (post : list string) :
  all_space post = true -> PyStr.span_word post = ([], post).
Proof.
  destruct post as [|ch post]; simpl; [reflexivity|].
  intros H. now apply andb_prop in H as [-> _].
Qed.

Lemma span_word_app (word post : list string) :
  no_space word = true -> all_space post = true ->
  PyStr.span_word (word ++ post) = (word, post).
Proof.
  intros Hw Hp. induction word as [|ch word IH]; simpl.
  - now apply span_word_all_space.
  - simpl in Hw. apply andb_prop in Hw as [Hch Hw].
    apply negb_true_iff in Hch. now rewrite Hch, (IH Hw).
Qed.

(** A text made of one word, with whitespace around it at most, splits
    into that word alone. *)
Lemma split_single_word (text : string) (pre word post : list string) :
  PyStr.chars text = pre ++ word ++ post ->
  all_space pre = true -> no_space word = true -> all_space post = true ->
  PyStr.split_maxsplit1 text
  = if PyStr.is_nil word then [] else [PyStr.unchars word].
Proof.
  intros Htext Hpre Hw Hpost. unfold PyStr.split_maxsplit1.
  rewrite Htext, lstrip_all_space_app by exact Hpre.
  destruct word as [|ch word].
  - simpl. now rewrite lstrip_all_space.
  - pose proof Hw as Hw'. simpl in Hw'. apply andb_prop in Hw' as [Hch _].
    apply negb_true_iff in Hch.
    rewrite <- app_comm_cons. cbn [PyStr.lstrip_chars]. rewrite Hch.
    rewrite app_comm_cons, (span_word_app _ _ Hw Hpost).
    now rewrite lstrip_all_space.
Qed.

(** The second part of a split holds a visible character. *)
Lemma split_part_head (text : string) :
  match PyStr.split_maxsplit1 text with
  | _ :: part :: _ => has_non_space part = true
  | _ => True
  end.
Proof.
  unfold PyStr.split_maxsplit1.
  destruct (lstrip_chars_suffix (PyStr.chars text)) as [l0 Hl0].
  pose proof (chars_proper text) as Hp. rewrite Hl0 in Hp.
  apply proper_app in Hp as [_ Hp].
  destruct (PyStr.lstrip_chars (PyStr.chars text)) as [|ch1 l1]; [exact I|].
  pose proof (span_word_parts (ch1 :: l1)) as Hparts.
  destruct (PyStr.span_word (ch1 :: l1)) as [w r]. cbn [fst snd] in Hparts.
  rewrite Hparts in Hp. apply proper_app in Hp as [_ Hp].
  destruct (lstrip_chars_suffix r) as [r0 Hr0].
  rewrite Hr0 in Hp. apply proper_app in Hp as [_ Hp].
  destruct (lstrip_chars_head r) as [->|(ch & r1 & Hr1 & Hch)]; [exact I|].
  rewrite Hr1 in Hp |- *. unfold has_non_space.
  rewrite chars_unchars by exact Hp. simpl. now rewrite Hch.
Qed.

Lemma lookup_url_absent (drama_id : string) (l : list SearchResult) :
  Forall (fun r => sr_id r <> drama_id) l -> lookup_url drama_id l = None.
Proof.
  induction 1 as [|r l Hr _ IH]; simpl; [reflexivity|].
  now destruct (String.eqb_spec (sr_id r) drama_id).
Qed.

End MoreSplit.

Section MoreHandlers.

Variable E : env.

(** What a search can do to the dictionary: nothing, or one new entry of
    one to ten results for the user who searched. *)
Lemma drama_command_store (uid : Z) (text : string) (w : world) :
  user_data (snd (drama_command E uid text w)) = user_data w
  \/ exists rs q,
       1 <= List.length rs <= 10
       /\ user_data (snd (drama_command E uid text w))
          = <[uid := mkUserEntry rs q]> (user_data w).
Proof.
  unfold drama_command.
  destruct (PyStr.split_maxsplit1 text) as [|cmd [|part rest]].
  1, 2: destruct (ext_run E (ReplyText MsgUsage) w) as (r & ok & ->);
    now left.
  unfold bind, ext. destruct (raises E (clock w)); [now left|].
  set (q := PyStr.strip part).
  set (w1 := log (ReplyText (MsgSearching q)) true w).
  destruct (search_interaction_run E uid q w1)
    as (r & w' & seg & rs & Heq & _ & Hrs & _ & _ & Hu & _).
  destruct (search_dramas_run E q w1)
    as (rs' & w2 & s2 & Heq2 & _ & _ & _ & _ & _ & _ & _ & Hp).
  rewrite Heq2 in Hrs. cbn [fst] in Hrs. injection Hrs as ->.
  rewrite Heq. cbn [snd]. rewrite Hu.
  destruct rs as [|r0 rs]; [now left|]. right.
  exists (r0 :: rs), q. split; [|reflexivity].
  split; [simpl; lia|].
  destruct (fst (_get_page_content E (search_url q) w1)) as [[soup|]|e];
    destruct Hp as [Hrs _]; try discriminate Hrs.
  rewrite Hrs. apply search_results_at_most_ten.
Qed.

(** The navigation of a search goes to the URL of a trimmed, non-empty
    query. *)
Lemma drama_command_gotos (uid : Z) (text : string) (w : world) :
  exists r w' seg,
    drama_command E uid text w = (r, w')
    /\ trace w' = trace w ++ seg
    /\ (gotos seg = []
        \/ exists q, q <> EmptyString /\ PyStr.strip q = q
                     /\ gotos seg = [search_url q]).
Proof.
  unfold drama_command. pose proof (split_part_head text) as Hpart.
  destruct (PyStr.split_maxsplit1 text) as [|cmd [|part rest]].
  1, 2: destruct (ext_run E (ReplyText MsgUsage) w) as (r & ok & Heq);
    exists r, (log (ReplyText MsgUsage) ok w), [(ReplyText MsgUsage, ok)];
    (split; [exact Heq|]); (split; [reflexivity|]); now left.
  unfold bind, ext. set (q := PyStr.strip part).
  destruct (raises E (clock w)).
  - do 3 eexists. split; [reflexivity|].
    split; [cbn [trace log]; reflexivity|]. now left.
  - destruct (search_interaction_run E uid q
                (log (ReplyText (MsgSearching q)) true w))
      as (r & w' & seg & rs & Heq & Htr & _ & _ & _ & _ & _ & _ & Hg & _).
    rewrite Heq. exists r, w', ((ReplyText (MsgSearching q), true) :: seg).
    split; [reflexivity|].
    split; [rewrite Htr; cbn [trace log]; now rewrite <- app_assoc|].
    destruct Hg as [Hg|Hg]; [now left|right].
    exists q. split; [now apply strip_non_empty|].
    split; [apply strip_idempotent|exact Hg].
Qed.

(** The handler of a click up to the point where the details are
    fetched: which messages end it early, and where the fetch goes. *)
Lemma drama_callback_gotos (uid : Z) (data : string) (w : world) :
  exists r w' seg,
    drama_callback E uid data w = (r, w')
    /\ trace w' = trace w ++ seg
    /\ (gotos seg = []
        \/ exists entry url,
             user_data w !! uid = Some entry
             /\ lookup_url (PyStr.replace_empty "mdl_" data)
                  (entry_results entry) = Some url
             /\ gotos seg = [url]).
Proof.
  unfold drama_callback, bind, get_world.
  destruct (ext_run E Answer w) as (r0 & ok0 & Heq0). rewrite Heq0.
  destruct r0 as [[]|e].
  2: { exists (Raise e), (log Answer ok0 w), [(Answer, ok0)].
       split; [reflexivity|]. split; [reflexivity|]. now left. }
  set (w0 := log Answer ok0 w).
  assert (Hshort : forall m,
             exists r w' seg,
               edit_callback_message E m w0 = (r, w')
               /\ trace w' = trace w ++ seg
               /\ (gotos seg = []
                   \/ exists entry url,
                        user_data w !! uid = Some entry
                        /\ lookup_url (PyStr.replace_empty "mdl_" data)
                             (entry_results entry) = Some url
                        /\ gotos seg = [url])).
  { intros m. destruct (edit_callback_run E m w0) as (r & ok & Heq).
    exists r, (log (EditText m) ok w0), [(Answer, ok0); (EditText m, ok)].
    split; [exact Heq|].
    split; [cbn [trace log w0]; now rewrite <- app_assoc|]. now left. }
  change (user_data w0) with (user_data w).
  destruct (user_data w !! uid) as [entry|] eqn:Hentry; [|now apply Hshort].
  destruct (lookup_url _ _) as [url|] eqn:Hurl; [|now apply Hshort].
  destruct (PyStr.is_empty url); [now apply Hshort|].
  destruct (edit_callback_run E MsgLoading w0) as (r1 & ok1 & Heq1).
  rewrite Heq1. destruct r1 as [[]|e].
  2: { exists (Raise e), (log (EditText MsgLoading) ok1 w0),
         [(Answer, ok0); (EditText MsgLoading, ok1)].
       split; [reflexivity|].
       split; [cbn [trace log w0]; now rewrite <- app_assoc|]. now left. }
  destruct (details_interaction_run E url (log (EditText MsgLoading) ok1 w0))
    as (r & w' & seg & Heq & Htr & _ & _ & _ & _ & Hg).
  rewrite Heq.
  exists r, w', ((Answer, ok0) :: (EditText MsgLoading, ok1) :: seg).
  split; [reflexivity|].
  split; [rewrite Htr; cbn [trace log w0]; now rewrite <- !app_assoc|].
  destruct Hg as [Hg|Hg]; [now left|right]. now exists entry, url.
Qed.

(** A click that finds no address to fetch is answered by one message. *)
Lemma drama_callback_short (uid : Z) (data : string) (w : world) (m : message) :
  match user_data w !! uid with
  | None => m = MsgNoUserData
  | Some entry =>
      lookup_url (PyStr.replace_empty "mdl_" data) (entry_results entry) = None
      /\ m = MsgDramaNotFound
  end ->
  drama_callback E uid data w
  = if raises E (clock w)
    then (Raise (ExternalError (clock w)), log Answer false w)
    else
      let ok := negb (message_deleted w || raises E (S (clock w))) in
      (if ok then Ok tt else Raise (ExternalError (S (clock w))),
       log (EditText m) ok (log Answer true w)).
Proof.
  intros H. unfold drama_callback, bind, get_world, ext.
  destruct (raises E (clock w)); [reflexivity|].
  change (user_data (log Answer true w)) with (user_data w).
  assert (Hedit : edit_callback_message E m (log Answer true w)
                  = (let ok := negb (message_deleted w
                                     || raises E (S (clock w))) in
                     (if ok then Ok tt else Raise (ExternalError (S (clock w))),
                      log (EditText m) ok (log Answer true w)))).
  { unfold edit_callback_message, ext. cbn [message_deleted clock log].
    destruct (message_deleted w), (raises E (S (clock w))); reflexivity. }
  destruct (user_data w !! uid) as [entry|]; [|now subst m].
  destruct H as [-> ->]. exact Hedit.
Qed.

End MoreHandlers.

(** X14. A command without a title (its characters are whitespace, then
    at most one word, then whitespace) is answered by the usage message
    and nothing else: no browser call is made and neither the scraper
    nor the stored result sets change. *)
Theorem command_without_title_only_replies
  (E : env) (uid : Z) (text : string) (pre word post : list string)
  (w : world) :
  PyStr.chars text = pre ++ word ++ post ->
  all_space pre = true -> no_space word = true -> all_space post = true ->
  drama_command E uid text w
  = (if raises E (clock w) then Raise (ExternalError (clock w)) else Ok tt,
     log (ReplyText MsgUsage) (negb (raises E (clock w))) w).
Proof.
  intros Htext Hpre Hw Hpost. unfold drama_command.
  rewrite (split_single_word text pre word post Htext Hpre Hw Hpost).
  destruct (PyStr.is_nil word); unfold ext;
    destruct (raises E (clock w)); reflexivity.
Qed.

Lemma command_without_title_only_replies_witness :
  segment fresh
    (snd (drama_command (calm page_three) 7
            (" /drama " +:+ ideographic_space +:+ nbsp) fresh))
  = [(ReplyText MsgUsage, true)].
Proof.
  exact (f_equal (fun run => segment fresh (snd run))
           (command_without_title_only_replies (calm page_three) 7
              (" /drama " +:+ ideographic_space +:+ nbsp)
              [" "] (PyStr.chars "/drama") [" "; ideographic_space; nbsp]
              fresh eq_refl eq_refl eq_refl eq_refl)).
Defined.

(** X15. Whenever the search handler navigates, it is to the search URL
    of a query that is not empty and that stripping leaves as it is (it
    has no whitespace character, ASCII or not, at either end); it
    navigates at most once. *)
Theorem command_query_is_trimmed
  (E : env) (uid : Z) (text : string) (w : world) :
  let seg := segment w (snd (drama_command E uid text w)) in
  gotos seg = []
  \/ exists q, q <> EmptyString /\ PyStr.strip q = q
               /\ gotos seg = [search_url q].
Proof.
  destruct (drama_command_gotos E uid text w) as (r & w' & seg & Heq & Htr & H).
  rewrite Heq. cbn [snd]. rewrite (segment_app _ _ _ Htr). exact H.
Qed.

(** X16. A click by a user without a stored result set is answered by
    "search again" and nothing else: after the acknowledgement the only
    call is the edit of the message. *)
Theorem click_without_results_only_reports
  (E : env) (uid : Z) (data : string) (w : world) :
  user_data w !! uid = None ->
  drama_callback E uid data w
  = if raises E (clock w)
    then (Raise (ExternalError (clock w)), log Answer false w)
    else
      let ok := negb (message_deleted w || raises E (S (clock w))) in
      (if ok then Ok tt else Raise (ExternalError (S (clock w))),
       log (EditText MsgNoUserData) ok (log Answer true w)).
Proof.
  intros H. apply drama_callback_short. now rewrite H.
Qed.

Lemma click_without_results_only_reports_witness :
  segment fresh (snd (drama_callback (calm page_three) 7 "mdl_67890" fresh))
  = [(Answer, true); (EditText MsgNoUserData, true)].
Proof.
  rewrite (click_without_results_only_reports (calm page_three) 7
             "mdl_67890" fresh eq_refl).
  reflexivity.
Defined.

(** X17. A click on an id that none of the user's stored results has is
    answered by "drama not found" and nothing else: no page is fetched. *)
Theorem click_on_unknown_id_only_reports
  (E : env) (uid : Z) (data : string) (w : world) (entry : UserEntry) :
  user_data w !! uid = Some entry ->
  Forall (fun r => sr_id r <> PyStr.replace_empty "mdl_" data)
    (entry_results entry) ->
  drama_callback E uid data w
  = if raises E (clock w)
    then (Raise (ExternalError (clock w)), log Answer false w)
    else
      let ok := negb (message_deleted w || raises E (S (clock w))) in
      (if ok then Ok tt else Raise (ExternalError (S (clock w))),
       log (EditText MsgDramaNotFound) ok (log Answer true w)).
Proof.
  intros Hentry Hnone. apply drama_callback_short. rewrite Hentry.
  split; [now apply lookup_url_absent|reflexivity].
Qed.

Lemma click_on_unknown_id_only_reports_witness :
  segment with_stored
    (snd (drama_callback (calm page_three) 7 "mdl_99999" with_stored))
  = [(Answer, true); (EditText MsgDramaNotFound, true)].
Proof.
  rewrite (click_on_unknown_id_only_reports (calm page_three) 7 "mdl_99999"
             with_stored stored_entry eq_refl).
  - reflexivity.
  - repeat constructor. discriminate.
Defined.

(** X18. The handler of a click never changes the stored result sets,
    whatever fails on the way. *)
Theorem click_keeps_stored_results
  (E : env) (uid : Z) (data : string) (w : world) :
  user_data (snd (drama_callback E uid data w)) = user_data w.
Proof.
  destruct (drama_callback_run E uid data w) as (r & w' & seg & Heq & _ & Hu & _).
  now rewrite Heq.
Qed.

(** X19. A search changes the stored result set of the user who searched
    at most: the entries of all other users stay as they are. *)
Theorem search_keeps_other_users
  (E : env) (uid other : Z) (text : string) (w : world) :
  other <> uid ->
  user_data (snd (drama_command E uid text w)) !! other = user_data w !! other.
Proof.
  intros Hne.
  destruct (drama_command_store E uid text w) as [->|(rs & q & _ & ->)];
    [reflexivity|].
  now apply lookup_insert_ne.
Qed.

Lemma search_keeps_other_users_witness :
  user_data (snd (drama_command (calm page_three) 7 "/drama Squid Game"
                    two_users)) !! 8%Z
  = Some (mkUserEntry twin_results "Second").
Proof.
  rewrite (search_keeps_other_users (calm page_three) 7 8
             "/drama Squid Game" two_users); [reflexivity|discriminate].
Defined.

(** X20. If every stored result set holds between one and ten results,
    this is still so after a search: the handler stores a set only when
    it is not empty, and never more than ten results. *)
Theorem search_keeps_sets_bounded
  (E : env) (uid : Z) (text : string) (w : world) :
  stored_sets_bounded (user_data w) ->
  stored_sets_bounded (user_data (snd (drama_command E uid text w))).
Proof.
  intros Hb.
  destruct (drama_command_store E uid text w) as [->|(rs & q & Hlen & ->)];
    [exact Hb|].
  intros u entry Hu. destruct (decide (uid = u)) as [->|Hne].
  - rewrite lookup_insert_eq in Hu. injection Hu as <-. exact Hlen.
  - rewrite lookup_insert_ne in Hu by exact Hne. now apply (Hb u).
Qed.

Lemma search_keeps_sets_bounded_witness :
  stored_sets_bounded
    (user_data (snd (drama_command (calm page_eleven) 7 "/drama Drama"
                       with_stored))).
Proof.
  apply (search_keeps_sets_bounded (calm page_eleven) 7 "/drama Drama"
           with_stored).
  intros u entry Hu. unfold with_stored in Hu. cbn [user_data] in Hu.
  apply lookup_singleton_Some in Hu as [_ <-]. simpl. lia.
Defined.

(** X21. Whenever the handler of a click navigates, it is to the address
    stored with the first of the user's results whose id is the selector
    without its tag; it navigates at most once. *)
Theorem click_fetches_stored_url
  (E : env) (uid : Z) (data : string) (w : world) :
  let seg := segment w (snd (drama_callback E uid data w)) in
  gotos seg = []
  \/ exists entry url,
       user_data w !! uid = Some entry
       /\ lookup_url (PyStr.replace_empty "mdl_" data) (entry_results entry)
          = Some url
       /\ gotos seg = [url].
Proof.
  destruct (drama_callback_gotos E uid data w) as (r & w' & seg & Heq & Htr & H).
  rewrite Heq. cbn [snd]. rewrite (segment_app _ _ _ Htr). exact H.
Qed.

(* ===================================================================== *)
(** ** How the handlers end *)
(* ===================================================================== *)

Section Outcomes.

Variable E : env.

Lemma segment_log (c : call) (ok : bool) (w : world) :
  segment w (log c ok w) = [(c, ok)].
Proof. unfold segment. cbn [trace log]. apply drop_app_length. Qed.

Lemma segment_log_log (c1 c2 : call) (ok1 ok2 : bool) (w : world) :
  segment w (log c2 ok2 (log c1 ok1 w)) = [(c1, ok1); (c2, ok2)].
Proof.
  unfold segment. cbn [trace log]. rewrite <- app_assoc.
  apply drop_app_length.
Qed.

Lemma told_outcome_app (s1 s2 : list event) :
  told_outcome (s1 ++ s2) = told_outcome s1 || told_outcome s2.
Proof. apply existsb_app. Qed.

Lemma told_outcome_end (s1 : list event) (ev : event) :
  outcome_delivered ev = true -> told_outcome (s1 ++ [ev]) = true.
Proof.
  intros H. rewrite told_outcome_app. simpl. rewrite H.
  now rewrite orb_true_r.
Qed.

(** A search interaction ends with the edit of the message: it returns
    when the last edit was accepted and raises when the error message
    was rejected. *)
Lemma search_interaction_outcome (uid : Z) (q : string) (w : world) :
  exists r w' seg,
    search_interaction E uid q w = (r, w')
    /\ trace w' = trace w ++ seg
    /\ match r with
       | Ok _ =>
           exists m, last seg = Some (EditText m, true)
                     /\ final_message m = true
       | Raise _ => last seg = Some (EditText MsgSearchError, false)
       end.
Proof.
  unfold search_interaction, try_except, bind.
  destruct (search_dramas_run E q w)
    as (rs & w1 & s1 & Heq1 & Htr1 & _).
  rewrite Heq1.
  destruct (close_run E w1) as (w2 & s2 & Heq2 & Htr2 & Hb2 & Hp2 & _).
  rewrite Heq2.
  destruct rs as [|r0 rs']; unfold ext, modify; cbn [clock log set_user_data];
    (next_call E;
     [rewrite close_noop by (cbn; assumption);
      cbn [clock log set_user_data]; next_call E|]);
    do 3 eexists;
    (split; [reflexivity|]);
    (split; [cbn [trace log set_user_data];
             rewrite Htr2, Htr1, <- !app_assoc; reflexivity|]);
    cbn beta iota; rewrite ?app_assoc;
    first [ apply last_snoc
          | eexists; split; [apply last_snoc|reflexivity] ].
Qed.

(** When the delivery of the details returns, the details have reached
    the user. *)
Lemma send_details_outcome (details : Details) (w : world) :
  exists r w' seg,
    send_details E details w = (r, w')
    /\ trace w' = trace w ++ seg
    /\ match r with
       | Ok _ => told_outcome seg = true
       | Raise _ => True
       end.
Proof.
  destruct w as [b p u d tr c]. unfold send_details, close.
  destruct (PyStr.is_empty (d_image_url details)), b, p, d;
    cbn [negb]; unfold_run; repeat (next_call E; unfold_run);
    do 3 eexists;
    (split; [reflexivity|]); (split; [trace_eq|]);
    cbn beta iota; reflexivity.
Qed.

Lemma details_interaction_outcome (url : string) (w : world) :
  exists r w' seg,
    details_interaction E url w = (r, w')
    /\ trace w' = trace w ++ seg
    /\ match r with
       | Ok _ => told_outcome seg = true
       | Raise _ => last seg = Some (EditText MsgDetailsError, false)
       end.
Proof.
  unfold details_interaction, try_except, bind.
  destruct (get_drama_details_run E url w)
    as (r1 & w1 & s1 & Heq1 & Htr1 & _).
  rewrite Heq1. destruct r1 as [details|].
  - destruct (send_details_outcome details w1)
      as (r2 & w2 & s2 & Heq2 & Htr2 & Hr2).
    rewrite Heq2. destruct r2 as [[]|e].
    + exists (Ok tt), w2, (s1 ++ s2).
      split; [reflexivity|].
      split; [now rewrite Htr2, Htr1, <- app_assoc|].
      rewrite told_outcome_app, Hr2. apply orb_true_r.
    + destruct (close_run E w2) as (w3 & s3 & Heq3 & Htr3 & _).
      rewrite Heq3.
      unfold edit_callback_message, ext.
      destruct (message_deleted w3); [|destruct (raises E (clock w3))];
        do 3 eexists;
        (split; [reflexivity|]);
        (split; [cbn [trace log]; rewrite Htr3, Htr2, Htr1, <- !app_assoc;
                 reflexivity|]);
        cbn beta iota; rewrite ?app_assoc;
        first [apply last_snoc | now apply told_outcome_end].
  - destruct (close_run E w1) as (w3 & s3 & Heq3 & Htr3 & Hb3 & Hp3 & _).
    rewrite Heq3.
    unfold edit_callback_message at 1. unfold ext at 1.
    destruct (message_deleted w3) eqn:Hd3.
    + rewrite close_noop by (cbn; assumption).
      unfold edit_callback_message. cbn [message_deleted log]. rewrite Hd3.
      do 3 eexists. split; [reflexivity|].
      split; [cbn [trace log]; rewrite Htr3, Htr1, <- !app_assoc;
              reflexivity|].
      cbn beta iota. rewrite !app_assoc. apply last_snoc.
    + destruct (raises E (clock w3)).
      * rewrite close_noop by (cbn; assumption).
        unfold edit_callback_message, ext. cbn [message_deleted log clock].
        rewrite Hd3.
        destruct (raises E (S (clock w3)));
          do 3 eexists;
          (split; [reflexivity|]);
          (split; [cbn [trace log]; rewrite Htr3, Htr1, <- !app_assoc;
                   reflexivity|]);
          cbn beta iota; rewrite !app_assoc;
          first [apply last_snoc | now apply told_outcome_end].
      * do 3 eexists. split; [reflexivity|].
        split; [cbn [trace log]; rewrite Htr3, Htr1, <- !app_assoc;
                reflexivity|].
        cbn beta iota. rewrite !app_assoc. now apply told_outcome_end.
Qed.

End Outcomes.

(** X22. The search handler always ends with a message to the user. It
    returns when its last call, a final message (usage, results, no
    results or the error message), was accepted, and it raises only when
    its last call, a message, was rejected: no failure of the browser or
    of the page makes it raise. *)
Theorem search_handler_ends_with_message
  (E : env) (uid : Z) (text : string) (w : world) :
  let seg := segment w (snd (drama_command E uid text w)) in
  match fst (drama_command E uid text w) with
  | Ok _ =>
      exists m, (last seg = Some (ReplyText m, true)
                 \/ last seg = Some (EditText m, true))
                /\ final_message m = true
  | Raise _ =>
      exists c, last seg = Some (c, false) /\ is_message_call c = true
  end.
Proof.
  cbv zeta. unfold drama_command.
  destruct (PyStr.split_maxsplit1 text) as [|cmd [|part rest]].
  1, 2: unfold ext; destruct (raises E (clock w)); cbn [fst snd];
    rewrite segment_log;
    [exists (ReplyText MsgUsage); now split
    |exists MsgUsage; split; [now left|reflexivity]].
  unfold bind, ext. set (q := PyStr.strip part).
  destruct (raises E (clock w)).
  - cbn [fst snd]. rewrite segment_log.
    exists (ReplyText (MsgSearching q)). now split.
  - destruct (search_interaction_outcome E uid q
                (log (ReplyText (MsgSearching q)) true w))
      as (r & w' & seg & Heq & Htr & Hr).
    rewrite Heq. cbn [fst snd].
    assert (Hseg : segment w w' = (ReplyText (MsgSearching q), true) :: seg).
    { apply segment_app. rewrite Htr. cbn [trace log].
      now rewrite <- app_assoc. }
    rewrite Hseg. destruct r as [[]|e].
    + destruct Hr as (m & Hlast & Hm). exists m. split; [right|exact Hm].
      rewrite last_cons, Hlast. reflexivity.
    + exists (EditText MsgSearchError). split; [|reflexivity].
      rewrite last_cons, Hr. reflexivity.
Qed.

(** X23. When the handler of a click returns, a final message or the
    photo has reached the user. It raises only when its last call was a
    rejected acknowledgement or a rejected edit of the message: no
    failure of the browser, of the page or of the extraction makes it
    raise. *)
Theorem click_handler_ends_with_message
  (E : env) (uid : Z) (data : string) (w : world) :
  let seg := segment w (snd (drama_callback E uid data w)) in
  match fst (drama_callback E uid data w) with
  | Ok _ => told_outcome seg = true
  | Raise _ =>
      exists c, last seg = Some (c, false) /\ is_chat_reply c = true
  end.
Proof.
  cbv zeta. unfold drama_callback, bind, get_world, ext.
  destruct (raises E (clock w)).
  { cbn [fst snd]. rewrite segment_log. exists Answer. now split. }
  set (w0 := log Answer true w).
  assert (Hshort : forall m,
             final_message m = true ->
             let run := edit_callback_message E m w0 in
             match fst run with
             | Ok _ => told_outcome (segment w (snd run)) = true
             | Raise _ =>
                 exists c, last (segment w (snd run)) = Some (c, false)
                           /\ is_chat_reply c = true
             end).
  { intros m Hm. unfold edit_callback_message, ext.
    destruct (message_deleted w0); [|destruct (raises E (clock w0))];
      cbn [fst snd]; unfold w0; rewrite segment_log_log;
      first [ exists (EditText m); now split
            | simpl; now rewrite Hm ]. }
  change (user_data w0) with (user_data w).
  destruct (user_data w !! uid) as [entry|]; [|now apply Hshort].
  destruct (lookup_url _ _) as [url|]; [|now apply Hshort].
  destruct (PyStr.is_empty url); [now apply Hshort|].
  destruct (edit_callback_run E MsgLoading w0) as (r1 & ok1 & Heq1).
  assert (Hok1 : match r1 with Ok _ => True | Raise _ => ok1 = false end).
  { revert Heq1. unfold edit_callback_message, ext.
    destruct (message_deleted w0); [|destruct (raises E (clock w0))];
      intros [= <- Hw]; try exact I;
      apply app_inv_head in Hw; now injection Hw. }
  rewrite Heq1. destruct r1 as [[]|e].
  2: { subst ok1. cbn [fst snd]. unfold w0. rewrite segment_log_log.
       exists (EditText MsgLoading). now split. }
  destruct (details_interaction_outcome E url
              (log (EditText MsgLoading) ok1 w0))
    as (r & w' & seg & Heq & Htr & Hr).
  rewrite Heq. cbn [fst snd].
  assert (Hseg : segment w w'
                 = (Answer, true) :: (EditText MsgLoading, ok1) :: seg).
  { apply segment_app. rewrite Htr. cbn [trace log w0].
    now rewrite <- !app_assoc. }
  rewrite Hseg. destruct r as [[]|e].
  - change (?a :: ?b :: seg) with ([a; b] ++ seg).
    rewrite told_outcome_app, Hr. apply orb_true_r.
  - exists (EditText MsgDetailsError). split; [|reflexivity].
    rewrite !last_cons, Hr. reflexivity.
Qed.

(** X24. For a result whose id does not contain [mdl_], the selector on
    its button gives the id back when the callback strips the tag, and
    the lookup with it finds what the lookup with the id finds. *)
Theorem button_selector_round_trip
  (drama : SearchResult) (l : list SearchResult) :
  PyStr.contains "mdl_" (sr_id drama) = false ->
  match result_button drama with
  | CallbackButton _ data =>
      PyStr.replace_empty "mdl_" data = sr_id drama
      /\ lookup_url (PyStr.replace_empty "mdl_" data) l
         = lookup_url (sr_id drama) l
  | UrlButton _ _ => False
  end.
Proof.
  intros H. unfold result_button.
  rewrite (selector_round_trip _ H). now split.
Qed.

Lemma button_selector_round_trip_witness :
  lookup_url (PyStr.replace_empty "mdl_" "mdl_2") twin_results
  = Some "https://mydramalist.com/2-second".
Proof.
  destruct (button_selector_round_trip
              (mkSearchResult "2" "Second" "https://mydramalist.com/2-second" "")
              twin_results eq_refl) as [_ H].
  exact (eq_trans H eq_refl).
Defined.

(** X25. [close] closes the browser if the scraper holds one, and stops
    the driver if it holds one and the browser, if any, closed without
    error: when closing the browser fails the driver is not stopped,
    although both handles are dropped. It makes no other call. *)
Theorem close_stops_driver_after_browser (E : env) (w : world) :
  segment w (snd (close E w))
  = match browser w, playwright w with
    | None, None => []
    | None, Some _ => [(PlaywrightStop, negb (raises E (clock w)))]
    | Some _, None => [(BrowserClose, negb (raises E (clock w)))]
    | Some _, Some _ =>
        if raises E (clock w) then [(BrowserClose, false)]
        else [(BrowserClose, true);
              (PlaywrightStop, negb (raises E (S (clock w))))]
    end.
Proof.
  destruct w as [b p u d tr c]. unfold close, segment.
  destruct b, p; unfold_run; repeat (next_call E; unfold_run);
    cbn [snd negb]; rewrite <- ?app_assoc, ?drop_app_length;
    try reflexivity; now rewrite drop_all.
Qed.
